(** * Session clients of the ADK advanced-sessions examples

    A shallow embedding of the HTTP session clients of
    [5.5-advanced-sessions]:

    - [2-rest-api-manager/session_manager.py]  (class [SessionManager]),
    - [4-programmatic-examples/async_sessions.py]
      (classes [AsyncSessionClient], [SyncSessionClient] and the demos that
      run batches of their coroutines through [asyncio.gather]),
    - [1-web-ui-creator/app.py] (the handler of the session form, which
      builds the same request).

    Python values that travel as JSON are modelled by [json], dictionaries
    by [gmap string json], exceptions by [exn].  A client method is a
    [coro]: a tree whose nodes are the effects the method performs (an HTTP
    exchange, blocking or awaited, and console output), so that the
    requests a call issues can be read off its run. *)

From stdpp Require Import gmap strings list pretty.

Set Warnings "-register-all,-clear-no-such-hyp".
Open Scope string_scope.

(** ** Values *)

Inductive json : Type :=
| JNull                           (* None / null *)
| JBool (b : bool)
| JNum (z : Z)
| JStr (s : string)
| JArr (l : list json)
| JObj (d : gmap string json).

(** Truth value of an [Optional[str]] argument: [None] and [''] are falsy. *)
Definition truthy (o : option string) : bool :=
  match o with
  | Some s => negb (String.eqb s "")
  | None => false
  end.

(** Truth value of a [str]: only [''] is falsy. *)
Definition nonempty (s : string) : bool := negb (String.eqb s "").

(** ** Exceptions *)

Inductive exn : Type :=
(* raised by the HTTP library *)
| ReqConnectionError (msg : string)
| ReqTimeout (msg : string)
| ReqHTTPError (status : Z) (text : string)
| ReqOther (msg : string)
(* raised by the interpreter while the reply is taken apart *)
| JSONDecodeError (msg : string)
| KeyError (key : string)
| AttributeError (msg : string)
| TypeError (msg : string)
(* raised by the clients themselves *)
| ConnectionError (msg : string)
| TimeoutError (msg : string)
| ValueError (msg : string).

Definition http_error_msg (status : Z) : string :=
  if bool_decide (status < 500)%Z
  then pretty status ++ " Client Error"
  else pretty status ++ " Server Error".

(** [str(e)]; the texts the libraries compose for an HTTP error are
    abbreviated to the status line. *)
Definition str_exn (e : exn) : string :=
  match e with
  | ReqConnectionError m | ReqTimeout m | ReqOther m | JSONDecodeError m
  | AttributeError m | TypeError m
  | ConnectionError m | TimeoutError m | ValueError m => m
  | ReqHTTPError st _ => http_error_msg st
  | KeyError k => "'" ++ k ++ "'"
  end.

(** ** HTTP exchanges *)

Inductive method := GET | POST | DELETE.

Record request := Request {
  req_method : method;
  req_path : string;              (* joined to the client's base URL *)
  req_json : option json;         (* the [json=] payload *)
  req_timeout : Z                 (* seconds *)
}.

Record response := Response {
  status_code : Z;
  text : string;                  (* raw body *)
  json_body : option json         (* [None]: the body is not valid JSON *)
}.

(** What the network may do with one request.  A timeout while connecting
    is both a connection error and a timeout for the library; the clients
    catch the connection error first, so it counts as [Refused]. *)
Inductive failure :=
| Refused (msg : string)          (* DNS failure, connection refused or reset *)
| TimedOut (msg : string)         (* no answer within the timeout *)
| Broken (msg : string).          (* any other transport exception *)

Inductive exchange :=
| Responded (r : response)
| Failed (f : failure).

Definition failure_exn (f : failure) : exn :=
  match f with
  | Refused m => ReqConnectionError m
  | TimedOut m => ReqTimeout m
  | Broken m => ReqOther m
  end.

(** ** Coroutines: the effects of a client method *)

Inductive coro (A : Type) : Type :=
| Ret (a : A)
| Raise (e : exn)
| Say (line : string) (c : coro A)                 (* print / st.error *)
| Call (r : request) (k : exchange → coro A)       (* requests.<verb>: blocks *)
| Await (r : request) (k : exchange → coro A).     (* aiohttp: suspends *)

Arguments Ret {A} a.
Arguments Raise {A} e.
Arguments Say {A} line c.
Arguments Call {A} r k.
Arguments Await {A} r k.

Fixpoint bind {A B} (c : coro A) (f : A → coro B) : coro B :=
  match c with
  | Ret a => f a
  | Raise e => Raise e
  | Say l c' => Say l (bind c' f)
  | Call r k => Call r (λ x, bind (k x) f)
  | Await r k => Await r (λ x, bind (k x) f)
  end.

(** [try: c  except Exception as e: h e] *)
Fixpoint try_except {A} (c : coro A) (h : exn → coro A) : coro A :=
  match c with
  | Ret a => Ret a
  | Raise e => h e
  | Say l c' => Say l (try_except c' h)
  | Call r k => Call r (λ x, try_except (k x) h)
  | Await r k => Await r (λ x, try_except (k x) h)
  end.

#[export] Instance coro_ret : MRet coro := @Ret.
#[export] Instance coro_bind : MBind coro := λ A B f c, bind c f.

Definition lift {A} (r : exn + A) : coro A :=
  match r with
  | inl e => Raise e
  | inr a => Ret a
  end.

(** ** Pieces shared by every client *)

(** [requests.post(...)] and friends: a blocking exchange. *)
Definition requests_call (r : request) : coro response :=
  Call r (λ x, match x with
               | Responded resp => Ret resp
               | Failed f => Raise (failure_exn f)
               end).

(** [async with self.session.post(...) as response]: an awaited exchange. *)
Definition aiohttp_call (r : request) : coro response :=
  Await r (λ x, match x with
                | Responded resp => Ret resp
                | Failed f => Raise (failure_exn f)
                end).

(** [Response.raise_for_status()] of [requests]: 4xx and 5xx raise. *)
Definition raise_for_status (resp : response) : exn + unit :=
  if bool_decide (400 ≤ status_code resp < 600)%Z
  then inl (ReqHTTPError (status_code resp) (text resp))
  else inr tt.

(** [ClientResponse.raise_for_status()] of [aiohttp]: 400 and above raise. *)
Definition aio_raise_for_status (resp : response) : exn + unit :=
  if bool_decide (400 ≤ status_code resp)%Z
  then inl (ReqHTTPError (status_code resp) (text resp))
  else inr tt.

(** [response.json()] *)
Definition response_json (resp : response) : exn + json :=
  match json_body resp with
  | Some j => inr j
  | None => inl (JSONDecodeError "Expecting value: line 1 column 1 (char 0)")
  end.

Definition type_name (j : json) : string :=
  match j with
  | JNull => "NoneType"
  | JBool _ => "bool"
  | JNum _ => "int"
  | JStr _ => "str"
  | JArr _ => "list"
  | JObj _ => "dict"
  end.

(** [data.get(key, default)] *)
Definition py_get (data : json) (key : string) (dflt : json) : exn + json :=
  match data with
  | JObj d => inr (default dflt (d !! key))
  | _ => inl (AttributeError
                ("'" ++ type_name data ++ "' object has no attribute 'get'"))
  end.

(** [data[key]] for a string [key] *)
Definition py_getitem (data : json) (key : string) : exn + json :=
  match data with
  | JObj d => match d !! key with
              | Some v => inr v
              | None => inl (KeyError key)
              end
  | JArr _ => inl (TypeError "list indices must be integers or slices, not str")
  | JStr _ => inl (TypeError "string indices must be integers, not 'str'")
  | _ => inl (TypeError ("'" ++ type_name data ++ "' object is not subscriptable"))
  end.

(** [data.get("response", data.get("text", ""))]: the inner call is an
    argument of the outer one and is evaluated first. *)
Definition reply_text (data : json) : exn + json :=
  match py_get data "text" (JStr "") with
  | inl e => inl e
  | inr fallback => py_get data "response" fallback
  end.

(** The state dictionary every [create_session] starts from. *)
Definition set_if_truthy (key : string) (v : option string)
    (state : gmap string json) : gmap string json :=
  match v with
  | Some s => if truthy v then <[key := JStr s]> state else state
  | None => state
  end.

Definition base_state (user_name : string) (user_email user_preferences : option string)
    : gmap string json :=
  set_if_truthy "user_preferences" user_preferences
    (set_if_truthy "user_email" user_email
       {[ "user_name" := JStr user_name ]}).

Definition create_payload (agent_id : string) (state : gmap string json) : json :=
  JObj (<["state" := JObj state]> {[ "agent_id" := JStr agent_id ]}).

Definition chat_payload (session_id message : string) : json :=
  JObj (<["message" := JStr message]> {[ "session_id" := JStr session_id ]}).

(** [str.rstrip('/')] *)
Fixpoint rstrip_slash (s : string) : string :=
  match s with
  | EmptyString => EmptyString
  | String c s' =>
      match rstrip_slash s' with
      | EmptyString => if String.eqb (String c EmptyString) "/" then EmptyString else String c EmptyString
      | r => String c r
      end
  end.

(** ** [SessionManager] (2-rest-api-manager/session_manager.py) *)

Module SessionManager.

Record t := Manager { base_url : string; timeout : Z }.

(** [__init__(self, base_url="http://localhost:8000", timeout=30)] *)
Definition init (url : string) (seconds : Z) : t :=
  {| base_url := rstrip_slash url; timeout := seconds |}.

Definition default : t := init "http://localhost:8000" 30.

Definition cannot_connect (self : t) : exn :=
  ConnectionError ("Cannot connect to ADK Web at " ++ base_url self ++
                   ". Make sure 'adk web' is running.").

Definition timed_out (self : t) : exn :=
  TimeoutError ("Request timed out after " ++ pretty (timeout self) ++ " seconds").

Definition unexpected (e : exn) : exn :=
  ValueError ("Unexpected error: " ++ str_exn e).

Definition session_not_found (session_id : string) : exn :=
  ValueError ("Session not found: " ++ session_id).

Definition request_failed (action : string) (status : Z) (body : string) : exn :=
  ValueError ("Failed to " ++ action ++ ": " ++ pretty status ++ " - " ++ body).

(** Names bound by the signature of [create_session]; a keyword argument
    with one of these names never reaches [**kwargs]: the call itself
    raises [TypeError]. *)
Definition create_session_parameters : list string :=
  ["self"; "agent_id"; "user_name"; "user_email"; "user_preferences"].

Definition clash (kwargs : gmap string json) : option string :=
  snd <$> list_find (λ k, bool_decide (is_Some (kwargs !! k)) = true)
            create_session_parameters.

Definition create_session_request (self : t) (agent_id : string)
    (state : gmap string json) : request :=
  Request POST "/sessions" (Some (create_payload agent_id state)) (timeout self).

Definition create_session_except (self : t) (e : exn) : exn :=
  match e with
  | ReqConnectionError _ => cannot_connect self
  | ReqTimeout _ => timed_out self
  | ReqHTTPError st body => request_failed "create session" st body
  | _ => unexpected e
  end.

Definition create_session (self : t) (agent_id user_name : string)
    (user_email user_preferences : option string)
    (kwargs : gmap string json) : coro json :=
  match clash kwargs with
  | Some k =>
      Raise (TypeError ("SessionManager.create_session() got multiple values for argument '"
                        ++ k ++ "'"))
  | None =>
      (* state.update(kwargs): the keyword arguments win *)
      let state := kwargs ∪ base_state user_name user_email user_preferences in
      try_except
        (resp ← requests_call (create_session_request self agent_id state);
         _ ← lift (raise_for_status resp);
         data ← lift (response_json resp);
         lift (py_getitem data "session_id"))
        (λ e, Raise (create_session_except self e))
  end.

Definition send_message_request (self : t) (session_id message : string) : request :=
  Request POST "/chat" (Some (chat_payload session_id message)) (timeout self).

Definition send_message_except (self : t) (session_id : string) (e : exn) : exn :=
  match e with
  | ReqConnectionError _ => cannot_connect self
  | ReqTimeout _ => timed_out self
  | ReqHTTPError st body =>
      if bool_decide (st = 404%Z) then session_not_found session_id
      else request_failed "send message" st body
  | _ => unexpected e
  end.

Definition send_message (self : t) (session_id message : string) : coro json :=
  try_except
    (resp ← requests_call (send_message_request self session_id message);
     _ ← lift (raise_for_status resp);
     data ← lift (response_json resp);
     lift (reply_text data))
    (λ e, Raise (send_message_except self session_id e)).

(** [s.get("agent_id") == agent_id] for a [str] filter *)
Definition agent_is (agent_id : string) (s : gmap string json) : bool :=
  match s !! "agent_id" with
  | Some (JStr a) => String.eqb a agent_id
  | _ => false
  end.

(** The body of [[s for s in l if s.get("agent_id") == agent_id]]. *)
Fixpoint keep_agent (agent_id : string) (l : list json) : exn + list json :=
  match l with
  | [] => inr []
  | s :: rest =>
      match s with
      | JObj d =>
          match keep_agent agent_id rest with
          | inl e => inl e
          | inr kept => inr (if agent_is agent_id d then s :: kept else kept)
          end
      | _ => inl (AttributeError
                    ("'" ++ type_name s ++ "' object has no attribute 'get'"))
      end
  end.

(** The comprehension over whatever [data.get("sessions", [])] returned:
    a list is walked element by element; a string yields its characters and
    a dictionary its keys, all of them [str] and so without [get]. *)
Definition filter_sessions (agent_id : string) (sessions : json) : exn + json :=
  match sessions with
  | JArr l => match keep_agent agent_id l with
              | inl e => inl e
              | inr kept => inr (JArr kept)
              end
  | JStr s =>
      if String.eqb s "" then inr (JArr [])
      else inl (AttributeError "'str' object has no attribute 'get'")
  | JObj d =>
      if bool_decide (size d = 0) then inr (JArr [])
      else inl (AttributeError "'str' object has no attribute 'get'")
  | _ => inl (TypeError ("'" ++ type_name sessions ++ "' object is not iterable"))
  end.

Definition list_sessions_request (self : t) : request :=
  Request GET "/sessions" None (timeout self).

Definition list_sessions_except (self : t) (e : exn) : exn :=
  match e with
  | ReqConnectionError _ => cannot_connect self
  | ReqTimeout _ => timed_out self
  | _ => unexpected e
  end.

Definition list_sessions (self : t) (agent_id : option string) : coro json :=
  try_except
    (resp ← requests_call (list_sessions_request self);
     _ ← lift (raise_for_status resp);
     data ← lift (response_json resp);
     sessions ← lift (py_get data "sessions" (JArr []));
     match agent_id with
     | Some a => if truthy agent_id then lift (filter_sessions a sessions)
                 else Ret sessions
     | None => Ret sessions
     end)
    (λ e, Raise (list_sessions_except self e)).

Definition session_request (m : method) (self : t) (session_id : string) : request :=
  Request m ("/sessions/" ++ session_id) None (timeout self).

Definition by_id_except (action : string) (self : t) (session_id : string)
    (e : exn) : exn :=
  match e with
  | ReqConnectionError _ => cannot_connect self
  | ReqHTTPError st body =>
      if bool_decide (st = 404%Z) then session_not_found session_id
      else request_failed action st body
  | _ => unexpected e
  end.

Definition get_session (self : t) (session_id : string) : coro json :=
  try_except
    (resp ← requests_call (session_request GET self session_id);
     _ ← lift (raise_for_status resp);
     lift (response_json resp))
    (λ e, Raise (by_id_except "get session" self session_id e)).

Definition delete_session (self : t) (session_id : string) : coro bool :=
  try_except
    (resp ← requests_call (session_request DELETE self session_id);
     _ ← lift (raise_for_status resp);
     Ret true)
    (λ e, Raise (by_id_except "delete session" self session_id e)).

Definition get_chat_url (self : t) (session_id : string) : string :=
  base_url self ++ "/?session=" ++ session_id.

End SessionManager.

(** ** The clients of 4-programmatic-examples/async_sessions.py *)

Definition ADK_BASE_URL : string := "http://localhost:8000".
Definition AGENT_ID : string := "dynamic_session_agent".

Definition create_request (state : gmap string json) : request :=
  Request POST "/sessions" (Some (create_payload AGENT_ID state)) 10.

Definition chat_request (session_id message : string) : request :=
  Request POST "/chat" (Some (chat_payload session_id message)) 30.

(** The [try] blocks of the two clients, from the reply on.  They differ
    only in the library whose [raise_for_status] they call. *)
Definition created_id (check : response → exn + unit) (x : exchange) : exn + json :=
  match x with
  | Failed f => inl (failure_exn f)
  | Responded resp =>
      match check resp with
      | inl e => inl e
      | inr _ =>
          match response_json resp with
          | inl e => inl e
          | inr data => py_getitem data "session_id"
          end
      end
  end.

Definition chat_reply (check : response → exn + unit) (x : exchange) : exn + json :=
  match x with
  | Failed f => inl (failure_exn f)
  | Responded resp =>
      match check resp with
      | inl e => inl e
      | inr _ =>
          match response_json resp with
          | inl e => inl e
          | inr data => reply_text data
          end
      end
  end.

(** [except Exception as e: print(f"... {e}"); return None] *)
Definition or_none (label : string) (r : exn + json) : coro json :=
  match r with
  | inr v => Ret v
  | inl e => Say (label ++ str_exn e) (Ret JNull)
  end.

Definition creating_failed : string := "❌ Error creating session: ".
Definition sending_failed : string := "❌ Error sending message: ".

Module AsyncSessionClient.

Definition create_session (user_name : string)
    (user_email user_preferences : option string) : coro json :=
  let state := base_state user_name user_email user_preferences in
  Await (create_request state)
        (λ x, or_none creating_failed (created_id aio_raise_for_status x)).

Definition send_message (session_id message : string) : coro json :=
  Await (chat_request session_id message)
        (λ x, or_none sending_failed (chat_reply aio_raise_for_status x)).

End AsyncSessionClient.

Module SyncSessionClient.

Definition create_session (user_name : string)
    (user_email user_preferences : option string) : coro json :=
  let state := base_state user_name user_email user_preferences in
  Call (create_request state)
       (λ x, or_none creating_failed (created_id raise_for_status x)).

Definition send_message (session_id message : string) : coro json :=
  Call (chat_request session_id message)
       (λ x, or_none sending_failed (chat_reply raise_for_status x)).

End SyncSessionClient.

(** An operation of a batch: one client call with its arguments. *)
Inductive op :=
| CreateSession (user_name : string) (user_email user_preferences : option string)
| SendMessage (session_id message : string).

Definition op_session (o : op) : option string :=
  match o with
  | CreateSession _ _ _ => None
  | SendMessage sid _ => Some sid
  end.

Definition op_request (o : op) : request :=
  match o with
  | CreateSession n e p => create_request (base_state n e p)
  | SendMessage sid msg => chat_request sid msg
  end.

(** [SessionClient = AsyncSessionClient if USE_ASYNC else SyncSessionClient] *)
Definition SessionClient (USE_ASYNC : bool) (o : op) : coro json :=
  match o with
  | CreateSession n e p =>
      if USE_ASYNC then AsyncSessionClient.create_session n e p
      else SyncSessionClient.create_session n e p
  | SendMessage sid msg =>
      if USE_ASYNC then AsyncSessionClient.send_message sid msg
      else SyncSessionClient.send_message sid msg
  end.

(** ** The session form of 1-web-ui-creator/app.py *)

Module WebForm.

Record created := Created {
  created_session_id : json;
  created_user_id : string;
  created_user_name : string;
  created_state : gmap string json
}.

(** "Build state dict (only include non-empty fields)" *)
Definition form_state (user_name user_email user_preferences
                       conversation_context : string) : gmap string json :=
  set_if_truthy "conversation_context" (Some conversation_context)
    (base_state user_name (Some user_email) (Some user_preferences)).

(** The handler run when the form is submitted.  The result is the entry
    appended to [st.session_state.created_sessions], if any.  Only the
    [st.error] and [st.success] messages are kept; the markup, the code
    blocks, the link button and the reset of the form fields are left
    out. *)
Definition submit (user_id user_name user_email user_preferences
                   conversation_context : string) : coro (option created) :=
  if negb (nonempty user_id) || negb (nonempty user_name)
  then Say "❌ User ID and User Name are required!" (Ret None)
  else
    let state := form_state user_name user_email user_preferences
                            conversation_context in
    try_except
      (resp ← requests_call (create_request state);
       if bool_decide (status_code resp = 200%Z) then
         data ← lift (response_json resp);
         session_id ← lift (py_getitem data "session_id");
         Say "✅ Session created successfully!"
             (Ret (Some (Created session_id user_id user_name state)))
       else
         Say ("❌ Failed to create session: " ++ pretty (status_code resp))
             (Ret None))
      (λ e, match e with
            | ReqConnectionError _ =>
                Say "❌ Cannot connect to ADK Web. Make sure it's running on port 8000!"
                    (Ret None)
            | _ => Say ("❌ Error: " ++ str_exn e) (Ret None)
            end).

End WebForm.

(** ** Running one coroutine to completion *)

Record world := World {
  sent : list request;            (* every request issued so far, oldest first *)
  console : list string
}.

(** The remote service: its answer may depend on everything it was sent. *)
Definition remote := list request → request → exchange.

Fixpoint run {A} (net : remote) (c : coro A) (w : world) : (exn + A) * world :=
  match c with
  | Ret a => (inr a, w)
  | Raise e => (inl e, w)
  | Say l c' => run net c' (World (sent w) (console w ++ [l])%list)
  | Call r k | Await r k =>
      run net (k (net (sent w) r)) (World (sent w ++ [r])%list (console w))
  end.

Definition fresh : world := World [] [].

(** The requests a call adds to the log. *)
Definition issued {A} (net : remote) (c : coro A) (w : world) : list request :=
  drop (length (sent w)) (sent (run net c w).2).

Definition outcome {A} (net : remote) (c : coro A) (w : world) : exn + A :=
  (run net c w).1.

(** ** [asyncio.gather] on the event loop

    [gather] wraps each coroutine in a task, in argument order, and the
    loop runs the first step of every task before it looks at the network.
    A task runs until it awaits an exchange; a blocking call does not
    yield, so the exchange is over before the next task is touched.  When
    the network completes an awaited exchange the loop resumes its task.
    Each child future keeps its own result; the done-callback of [gather]
    counts finished children and, once all are in, reads the results off
    the children in argument order.

    The connection pool of an [aiohttp.ClientSession] is not modelled: by
    default it holds [connector_limit] connections, and the traces below
    are those of batches that fit into it.  The results of a batch do not
    depend on it. *)

Definition connector_limit : nat := 100.

Inductive event :=
| Begin (i : nat)                 (* task [i] issues its request *)
| End (i : nat).                  (* the exchange of task [i] is over *)

#[export] Instance event_eq_dec : EqDecision event.
Proof. solve_decision. Defined.

Section EventLoop.
Context {A : Type}.

Record loop := Loop {
  waiting : gmap nat (request * (exchange → coro A));  (* suspended tasks *)
  cells : list (option (exn + A));                     (* the child futures *)
  nfinished : nat;
  outer : option (exn + list A);                       (* the future of gather *)
  trace : list event;
  printed : list string
}.

(** The answers of the network, per task. *)
Definition network := nat → request → exchange.

(** [results = [fut.result() for fut in children]] *)
Definition results (cs : list (option (exn + A))) : option (list A) :=
  mapM (λ c, match c with Some (inr a) => Some a | _ => None end) cs.

(** A task ends: its future is set and the done-callback runs. *)
Definition finish (i : nat) (r : exn + A) (st : loop) : loop :=
  let cells' := <[i := Some r]> (cells st) in
  let n' := S (nfinished st) in
  let outer' :=
    match outer st with
    | Some o => Some o
    | None =>
        match r with
        | inl e => Some (inl e)
        | inr _ => if bool_decide (n' = length cells')
                   then inr <$> results cells' else None
        end
    end in
  Loop (waiting st) cells' n' outer' (trace st) (printed st).

(** One task runs until it suspends or ends. *)
Fixpoint step (net : network) (i : nat) (c : coro A) (st : loop) : loop :=
  match c with
  | Ret a => finish i (inr a) st
  | Raise e => finish i (inl e) st
  | Say l c' =>
      step net i c' (Loop (waiting st) (cells st) (nfinished st) (outer st)
                          (trace st) (printed st ++ [l])%list)
  | Call r k =>
      step net i (k (net i r))
           (Loop (waiting st) (cells st) (nfinished st) (outer st)
                 (trace st ++ [Begin i; End i])%list (printed st))
  | Await r k =>
      Loop (<[i := (r, k)]> (waiting st)) (cells st) (nfinished st) (outer st)
           (trace st ++ [Begin i])%list (printed st)
  end.

(** The network completes the exchange task [i] is waiting for. *)
Definition deliver (net : network) (st : loop) (i : nat) : loop :=
  match waiting st !! i with
  | Some (r, k) =>
      step net i (k (net i r))
           (Loop (delete i (waiting st)) (cells st) (nfinished st) (outer st)
                 (trace st ++ [End i])%list (printed st))
  | None => st
  end.

Definition spawn (n : nat) : loop :=
  Loop ∅ (replicate n None) 0
       (if bool_decide (n = 0) then Some (inr []) else None) [] [].

(** The first step of every task, in argument order. *)
Fixpoint start (net : network) (i : nat) (coros : list (coro A)) (st : loop) : loop :=
  match coros with
  | [] => st
  | c :: rest => start net (S i) rest (step net i c st)
  end.

(** [await asyncio.gather] of the coroutines; [order] lists the tasks in the order
    in which the network completes their exchanges. *)
Definition gather (net : network) (order : list nat) (coros : list (coro A)) : loop :=
  foldl (deliver net) (start net 0 coros (spawn (length coros))) order.

End EventLoop.

Arguments loop A : clear implicits.

(** A batch of client calls handed to [gather], as in the demos. *)
Definition run_batch (USE_ASYNC : bool) (net : network) (order : list nat)
    (ops : list op) : loop json :=
  gather net order (SessionClient USE_ASYNC <$> ops).

(** Number of exchanges in flight after the events of [tr]. *)
Definition in_flight (tr : list event) : nat :=
  foldl (λ n e, match e with Begin _ => S n | End _ => pred n end) 0 tr.

(** [e1] occurs before [e2] in [tr]. *)
Definition precedes (e1 e2 : event) (tr : list event) : Prop :=
  ∃ a b, tr !! a = Some e1 ∧ tr !! b = Some e2 ∧ a < b.

(** ** The batches of the demos *)

(** demo_1_concurrent_creation: ten users *)
Definition demo_1_tasks : list op :=
  (λ i : nat, CreateSession ("User " ++ pretty i)
                (Some ("user" ++ pretty i ++ "@example.com"))
                (Some ("Test user number " ++ pretty i))) <$> seq 1 10.

(** demo_3_load_test, phase 1 *)
Definition demo_3_create_tasks : list op :=
  (λ i : nat, CreateSession ("LoadTest" ++ pretty i) None
                (Some ("Load test user " ++ pretty i))) <$> seq 0 20.

(** demo_3_load_test, phase 2: three messages for every session *)
Definition demo_3_message_tasks (session_ids : list string) : list op :=
  sid ← session_ids;
  (λ i : nat, SendMessage sid ("Test message " ++ pretty (i + 1))) <$> seq 0 3.

Definition conversations : list (string * list string) :=
  [ ("Alice", ["Hi! I'm a software engineer.";
               "I love Python programming.";
               "What do I do for work?"]);
    ("Bob", ["Hello! I'm a data scientist.";
             "I work with machine learning.";
             "What's my profession?"]);
    ("Carol", ["Hey! I'm a student.";
               "I'm learning computer science.";
               "What am I studying?"]) ].

(** demo_4_concurrent_conversations: every message of every conversation,
    conversation by conversation; [sessions[name]] raises for a user whose
    session was not created. *)
Fixpoint demo_4_tasks (convs : list (string * list string))
    (sessions : gmap string string) : exn + list op :=
  match convs with
  | [] => inr []
  | (name, messages) :: rest =>
      match sessions !! name with
      | None => inl (KeyError name)
      | Some session_id =>
          match demo_4_tasks rest sessions with
          | inl e => inl e
          | inr tasks => inr ((SendMessage session_id <$> messages) ++ tasks)%list
          end
      end
  end.

(** ** Auxiliary notions used in the statements *)

(** A continuation that performs no further exchange: what it prints and
    how it ends. *)
Fixpoint settled {A} (c : coro A) : option (list string * (exn + A)) :=
  match c with
  | Ret a => Some ([], inr a)
  | Raise e => Some ([], inl e)
  | Say l c' => (λ p, (l :: p.1, p.2)) <$> settled c'
  | Call _ _ | Await _ _ => None
  end.

(** The [state] entry of a posted creation payload. *)
Definition posted_state (r : request) : option (gmap string json) :=
  match req_json r with
  | Some (JObj d) => match d !! "state" with
                     | Some (JObj s) => Some s
                     | _ => None
                     end
  | _ => None
  end.

(** Python truth value of a decoded JSON value. *)
Definition json_truthy (v : json) : bool :=
  match v with
  | JNull => false
  | JBool b => b
  | JNum z => negb (Z.eqb z 0)
  | JStr s => nonempty s
  | JArr l => negb (Nat.eqb (length l) 0)
  | JObj d => negb (Nat.eqb (size d) 0)
  end.

Definition optional_keys : list string :=
  ["user_email"; "user_preferences"; "conversation_context"].

Definition is_object (s : json) : Prop := ∃ d, s = JObj d.

Definition has_agent (agent_id : string) (s : json) : bool :=
  match s with
  | JObj d => SessionManager.agent_is agent_id d
  | _ => false
  end.


(** A remote that accepts everything. *)
Definition accepting : remote :=
  λ _ r,
    Responded (Response 200 ""
      (Some (JObj (<["response" := JStr "ok"]> {[ "session_id" := JStr "s-1" ]})))).

(** The library check behind [response.raise_for_status()] in each client. *)
Definition op_check (USE_ASYNC : bool) : response → exn + unit :=
  if USE_ASYNC then aio_raise_for_status else raise_for_status.

(** The [try] block of an operation: its value, or the exception that
    reaches the [except] clause. *)
Definition op_attempt (USE_ASYNC : bool) (o : op) (x : exchange) : exn + json :=
  match o with
  | CreateSession _ _ _ => created_id (op_check USE_ASYNC) x
  | SendMessage _ _ => chat_reply (op_check USE_ASYNC) x
  end.

Definition op_label (o : op) : string :=
  match o with
  | CreateSession _ _ _ => creating_failed
  | SendMessage _ _ => sending_failed
  end.

(** What an operation returns when it is awaited on its own and the
    network answers [x]. *)
Definition alone (USE_ASYNC : bool) (o : op) (x : exchange) : exn + json :=
  outcome (λ _ _, x) (SessionClient USE_ASYNC o) fresh.

(** Never more than [C] exchanges in flight. *)
Definition bounded (C : nat) (tr : list event) : Prop :=
  ∀ k, (in_flight (take k tr) ≤ C)%nat.

(** Two operations on one session never overlap: the earlier one is over
    before the later one begins. *)
Definition serial_per_session (ops : list op) (tr : list event) : Prop :=
  ∀ i j o1 o2 sid,
    ops !! i = Some o1 → ops !! j = Some o2 → (i < j)%nat →
    op_session o1 = Some sid → op_session o2 = Some sid →
    precedes (End i) (Begin j) tr.

Fixpoint precedesb (e1 e2 : event) (tr : list event) : bool :=
  match tr with
  | [] => false
  | e :: rest =>
      (bool_decide (e = e1) && bool_decide (e2 ∈ rest)) || precedesb e1 e2 rest
  end.

(** A network that answers every request of every task with success. *)
Definition obliging : network :=
  λ _ _,
    Responded (Response 200 ""
      (Some (JObj (<["response" := JStr "ok"]> {[ "session_id" := JStr "s-1" ]})))).

(** A network that treats task 1 differently. *)
Definition except_task_1 (x : exchange) : network :=
  λ i r, if bool_decide (i = 1) then x else obliging i r.

Definition demo_4_sessions : gmap string string :=
  <["Alice" := "s-alice"]> (<["Bob" := "s-bob"]> {[ "Carol" := "s-carol" ]}).

Definition demo_4_batch : list op :=
  match demo_4_tasks conversations demo_4_sessions with
  | inr tasks => tasks
  | inl _ => []
  end.

Definition three_creations : list op :=
  [CreateSession "Alice" None None; CreateSession "Bob" None None;
   CreateSession "Carol" None None].

(** The raw text of a JSON object with the one entry [response],
    holding the string [cached]. *)
Definition cached_text : string :=
  let quote := String (Ascii.ascii_of_nat 34) "" in
  "{" ++ quote ++ "response" ++ quote ++ ": " ++ quote ++ "cached" ++ quote ++ "}".

(** A remote that answers 300 (Multiple Choices) with that JSON body. *)
Definition multiple_choices : remote :=
  λ _ _, Responded (Response 300 cached_text
                      (Some (JObj {[ "response" := JStr "cached" ]}))).

(** A remote whose session list holds one session of agent ["helper"]. *)
Definition one_session : json :=
  JObj (<["agent_id" := JStr "helper"]> {[ "session_id" := JStr "s-1" ]}).

Definition listing : remote :=
  λ _ _, Responded (Response 200 "" (Some (JObj {[ "sessions" := JArr [one_session] ]}))).

(** Every optional entry of a posted state is truthy. *)
Definition only_truthy_optionals (state : gmap string json) : Prop :=
  ∀ k v, k ∈ optional_keys → state !! k = Some v → json_truthy v = true.

(** The outcome of every operation, value or exception, can be read off
    its slot of the batch result. *)
Definition slots_hold_outcomes (USE_ASYNC : bool) (ops : list op) : Prop :=
  ∃ read : json → exn + json,
    ∀ net order out,
      order ≡ₚ seq 0 (length ops) →
      outer (run_batch USE_ASYNC net order ops) = Some (inr out) →
      ∀ i o, ops !! i = Some o →
             read <$> out !! i = Some (op_attempt USE_ASYNC o (net i (op_request o))).

(** A coroutine that performs no exchange. *)
Definition quiet {A} (c : coro A) : Prop := is_Some (settled c).

(** ** Bookkeeping for batches *)

Definition from_attempt (r : exn + json) : json :=
  match r with
  | inr v => v
  | inl _ => JNull
  end.

Definition complaint (label : string) (r : exn + json) : list string :=
  match r with
  | inr _ => []
  | inl e => [label ++ str_exn e]
  end.

(** What task [j] of a batch leaves in its future, and what it prints. *)
Definition slot (USE_ASYNC : bool) (net : network) (ops : list op) (j : nat) : json :=
  match ops !! j with
  | Some o => from_attempt (op_attempt USE_ASYNC o (net j (op_request o)))
  | None => JNull
  end.

Definition says (USE_ASYNC : bool) (net : network) (ops : list op) (j : nat)
    : list string :=
  match ops !! j with
  | Some o => complaint (op_label o) (op_attempt USE_ASYNC o (net j (op_request o)))
  | None => []
  end.

Definition resume (USE_ASYNC : bool) (o : op) : exchange → coro json :=
  λ x, or_none (op_label o) (op_attempt USE_ASYNC o x).

Definition note {A} (ls : list string) (st : loop A) : loop A :=
  Loop (waiting st) (cells st) (nfinished st) (outer st) (trace st)
       (printed st ++ ls)%list.

(** State of the loop once the awaited exchanges listed in [done] are
    over (aiohttp client). *)
Definition async_inv (net : network) (ops : list op)
    (done : list nat) (st : loop json) : Prop :=
  (∀ j, waiting st !! j
        = if decide (j ∈ done) then None
          else (λ o, (op_request o, resume true o)) <$> ops !! j)
  ∧ length (cells st) = length ops
  ∧ (∀ j, (j < length ops)%nat →
          cells st !! j
          = Some (if decide (j ∈ done) then Some (inr (slot true net ops j)) else None))
  ∧ nfinished st = length done
  ∧ trace st = ((Begin <$> seq 0 (length ops)) ++ (End <$> done))%list
  ∧ printed st = done ≫= says true net ops
  ∧ outer st = if decide (length done = length ops)
               then Some (inr (slot true net ops <$> seq 0 (length ops))) else None.

(** State of the loop once the first [i] tasks have run (requests client). *)
Definition sync_inv (net : network) (ops : list op)
    (i : nat) (st : loop json) : Prop :=
  (i ≤ length ops)%nat
  ∧ waiting st = ∅
  ∧ length (cells st) = length ops
  ∧ (∀ j, (j < length ops)%nat →
          cells st !! j
          = Some (if decide (j < i)%nat then Some (inr (slot false net ops j)) else None))
  ∧ nfinished st = i
  ∧ trace st = seq 0 i ≫= (λ j, [Begin j; End j])
  ∧ printed st = seq 0 i ≫= says false net ops
  ∧ outer st = if decide (i = length ops)
               then Some (inr (slot false net ops <$> seq 0 (length ops))) else None.

(** ** Notions used for the further properties *)

(** The exceptions the clients raise on purpose. *)
Definition client_error (e : exn) : Prop :=
  match e with
  | ConnectionError _ | TimeoutError _ | ValueError _ => True
  | _ => False
  end.

Definition ends_with_slash (s : string) : Prop := ∃ t, s = t ++ "/".

(** ['/' * k] *)
Fixpoint slashes (k : nat) : string :=
  match k with
  | 0 => ""
  | S k' => "/" ++ slashes k'
  end.

(** A remote with one fixed behaviour. *)
Definition always (x : exchange) : remote := λ _ _, x.

(** What aiohttp ([xa]) and requests ([xr]) hand back for one reply of
    the service is alike: both fail, or both give a response with the
    same status and the same decoded body.  (aiohttp declines to decode a
    body whose content type is not JSON; requests decodes it.) *)
Definition decoded_alike (xa xr : exchange) : Prop :=
  match xa, xr with
  | Failed _, Failed _ => True
  | Responded a, Responded r =>
      status_code a = status_code r ∧ json_body a = json_body r
  | _, _ => False
  end.

(** The raw text of a JSON object with the one entry [session_id],
    holding the string [s-1]. *)
Definition session_text : string :=
  let quote := String (Ascii.ascii_of_nat 34) "" in
  "{" ++ quote ++ "session_id" ++ quote ++ ": " ++ quote ++ "s-1" ++ quote ++ "}".

(** The decoded body is not a JSON object (or the body is not JSON). *)
Definition not_an_object (body : option json) : Prop := ∀ d, body ≠ Some (JObj d).

(** ** The command-line creator (3-cli-interactive/create_session.py) *)

Module CLI.

Definition ESC : string := String (Ascii.ascii_of_nat 27) "".
Definition NL : string := String (Ascii.ascii_of_nat 10) "".

(** [class Colors] *)
Definition HEADER : string := ESC ++ "[95m".
Definition BLUE : string := ESC ++ "[94m".
Definition CYAN : string := ESC ++ "[96m".
Definition GREEN : string := ESC ++ "[92m".
Definition YELLOW : string := ESC ++ "[93m".
Definition RED : string := ESC ++ "[91m".
Definition ENDC : string := ESC ++ "[0m".
Definition BOLD : string := ESC ++ "[1m".

Definition colored (text color : string) : string := color ++ text ++ ENDC.

(** The lines [print_error] and [print_info] print. *)
Definition print_error (text : string) : string := colored ("❌ " ++ text) RED.
Definition print_info (text : string) : string := colored ("ℹ️  " ++ text) CYAN.

(** What a prompt yields for the text typed: [None] for nothing. *)
Definition optional (value : string) : option string :=
  if nonempty value then Some value else None.

(** The state built at the head of [create_session]. *)
Definition state_of (user_name : string)
    (user_email user_preferences conversation_context : option string)
    : gmap string json :=
  set_if_truthy "conversation_context" conversation_context
    (base_state user_name user_email user_preferences).

(** [create_session]; the module-level [session_history] is passed in and
    handed back next to the value returned.  An entry has the four keys
    of the entries the web form keeps. *)
Definition create_session (user_id user_name : string)
    (user_email user_preferences conversation_context : option string)
    (session_history : list WebForm.created)
    : coro (json * list WebForm.created) :=
  let state := state_of user_name user_email user_preferences conversation_context in
  try_except
    (Say (colored (NL ++ "⏳ Creating session...") YELLOW)
       (resp ← requests_call (create_request state);
        if bool_decide (status_code resp = 200%Z) then
          data ← lift (response_json resp);
          session_id ← lift (py_getitem data "session_id");
          Ret (session_id,
               (session_history
                  ++ [WebForm.Created session_id user_id user_name state])%list)
        else
          Say (print_error ("Failed to create session: " ++ pretty (status_code resp)))
              (Say (text resp) (Ret (JNull, session_history)))))
    (λ e, match e with
          | ReqConnectionError _ =>
              Say (print_error "Cannot connect to ADK Web!")
                (Say (print_info "Make sure ADK Web is running:")
                   (Say "  cd d:\agentic\adk\5.5-advanced-sessions"
                      (Say "  adk web" (Ret (JNull, session_history)))))
          | _ => Say (print_error ("Error: " ++ str_exn e))
                     (Ret (JNull, session_history))
          end).

(** What arrives on standard input. *)
Inductive key :=
| Line (typed : string)           (* a line, without its newline *)
| CtrlC.                          (* KeyboardInterrupt *)

(** How [get_input] ends. *)
Inductive answer :=
| Value (v : option string)       (* returned *)
| Exit (code : Z)                 (* sys.exit *)
| EndOfInput.                     (* EOFError from input(), not caught here *)

Section Input.
Variable strip : string → string. (* str.strip *)

(** [get_input(prompt, required)]: the answer, what was written to the
    terminal, and the input left. *)
Fixpoint get_input (prompt : string) (required : bool) (stdin : list key)
    : answer * list string * list key :=
  let ask := colored (prompt ++ ": ") BLUE in
  match stdin with
  | [] => (EndOfInput, [ask], [])
  | CtrlC :: rest => (Exit 0, [ask; NL ++ colored "👋 Goodbye!" YELLOW], rest)
  | Line typed :: rest =>
      let value := strip typed in
      if nonempty value then (Value (Some value), [ask], rest)
      else if negb required then (Value None, [ask], rest)
      else
        let '(a, out, rest') := get_input prompt required rest in
        (a, ask :: print_error "This field is required!" :: out, rest')
  end.

End Input.

End CLI.

(** ** More of the demos of async_sessions.py *)

(** demo_4: one turn of [for name, session_id in zip(conversations.keys(),
    session_ids): if session_id: sessions[name] = session_id]. *)
Definition keep_session (sessions : gmap string string)
    (p : string * option string) : gmap string string :=
  match p.2 with
  | Some session_id => if truthy p.2 then <[p.1 := session_id]> sessions
                       else sessions
  | None => sessions
  end.

(** demo_4: the [sessions] dictionary, filled from the results of the
    creations. *)
Definition demo_4_sessions_of (names : list string)
    (session_ids : list (option string)) : gmap string string :=
  foldl keep_session ∅ (zip names session_ids).

(** demo_4 between the two gathers: [None] when it gives up because no
    session was created, otherwise the message tasks, unless building
    them raises. *)
Definition demo_4_messages (convs : list (string * list string))
    (session_ids : list (option string)) : exn + option (list op) :=
  let sessions := demo_4_sessions_of (fst <$> convs) session_ids in
  if bool_decide (size sessions = 0) then inr None
  else match demo_4_tasks convs sessions with
       | inl e => inl e
       | inr tasks => inr (Some tasks)
       end.

(** demo_4: [message_map], filled next to [all_tasks]. *)
Definition demo_4_message_map (convs : list (string * list string))
    : list (string * string) :=
  conv ← convs; pair conv.1 <$> conv.2.

(** demo_4: [[(msg, resp) for (n, msg), resp in zip(message_map, responses)
    if n == name]] *)
Definition user_responses (name : string) (message_map : list (string * string))
    (responses : list json) : list (string * json) :=
  (λ p, (p.1.2, p.2)) <$> filter (λ p, p.1.1 = name) (zip message_map responses).

(** ** The set-up check (verify_setup.py) *)

Module VerifySetup.

(** What the script asks of the file system: [os.path.exists] (and
    [Path.exists]), [os.path.isdir], and [Path.read_text], which raises
    when the file cannot be read. *)
Record filesystem := Filesystem {
  path_exists : string → bool;
  isdir : string → bool;
  read_text : string → exn + string
}.

(** [sub in s] on strings. *)
Fixpoint contains (sub s : string) : bool :=
  String.prefix sub s
  || match s with
     | EmptyString => false
     | String _ s' => contains sub s'
     end.

Definition found (description : string) : string := "✅ " ++ description.
Definition not_found (description : string) : string :=
  "❌ " ++ description ++ " - NOT FOUND".

(** ['=' * 60] *)
Definition rule : string := String.concat "" (replicate 60 "=").

(** The script's state: the flag [all_good] and the lines printed. *)
Definition progress : Type := bool * list string.

Definition say (line : string) (st : progress) : progress :=
  (st.1, (st.2 ++ [line])%list).

Section Checks.
Variable fs : filesystem.
(** [Path.__truediv__], with paths as the strings [str] makes of them. *)
Variable joinpath : string → string → string.
(** [Path(__file__).parent] *)
Variable base_path : string.

Definition check_file (path description : string) : bool * string :=
  if path_exists fs path then (true, found description)
  else (false, not_found description).

Definition check_directory (path description : string) : bool * string :=
  if isdir fs path then (true, found description)
  else (false, not_found description).

(** [for path, desc in items: if not check(str(path), desc): all_good = False] *)
Definition check_all (check : string → string → bool * string)
    (items : list (string * string)) (st : progress) : progress :=
  foldl (λ st item,
           let r := check item.1 item.2 in
           (if negb r.1 then false else st.1, (st.2 ++ [r.2])%list))
        st items.

Definition folders : list (string * string) :=
  [(joinpath base_path "agent", "Agent folder");
   (joinpath base_path "1-web-ui-creator", "Web UI folder");
   (joinpath base_path "2-rest-api-manager", "REST API folder");
   (joinpath base_path "3-cli-interactive", "CLI folder");
   (joinpath base_path "4-programmatic-examples", "Examples folder")].

Definition agent_files : list (string * string) :=
  [(joinpath (joinpath base_path "agent") "__init__.py", "Agent __init__.py");
   (joinpath (joinpath base_path "agent") "agent.py", "Agent definition")].

Definition webui_files : list (string * string) :=
  [(joinpath (joinpath base_path "1-web-ui-creator") "app.py", "Streamlit app");
   (joinpath (joinpath base_path "1-web-ui-creator") "requirements.txt",
    "Web UI requirements");
   (joinpath (joinpath base_path "1-web-ui-creator") "README.md", "Web UI README")].

Definition api_files : list (string * string) :=
  [(joinpath (joinpath base_path "2-rest-api-manager") "session_manager.py",
    "SessionManager class");
   (joinpath (joinpath base_path "2-rest-api-manager") "examples.py", "API examples");
   (joinpath (joinpath base_path "2-rest-api-manager") "README.md", "API README")].

Definition cli_files : list (string * string) :=
  [(joinpath (joinpath base_path "3-cli-interactive") "create_session.py",
    "CLI session creator");
   (joinpath (joinpath base_path "3-cli-interactive") "README.md", "CLI README")].

Definition example_files : list (string * string) :=
  [(joinpath (joinpath base_path "4-programmatic-examples") "multi_user_demo.py",
    "Multi-user demo");
   (joinpath (joinpath base_path "4-programmatic-examples") "async_sessions.py",
    "Async demo");
   (joinpath (joinpath base_path "4-programmatic-examples") "README.md",
    "Examples README")].

Definition doc_files : list (string * string) :=
  [(joinpath base_path "README.md", "Main README");
   (joinpath base_path "QUICKSTART.md", "Quick start guide");
   (joinpath base_path "COMPARISON.md", "Comparison guide");
   (joinpath base_path ".env", "Environment file")].

Definition agent_file : string := joinpath (joinpath base_path "agent") "agent.py".

Definition checks : list (string * string) :=
  [("dynamic_session_agent", "Agent name is correct");
   ("root_agent", "Root agent alias exists");
   ("{%- if user_name %}", "Jinja2 conditionals present");
   ("gemini-2.0-flash", "Using correct model")].

(** [for check_str, desc in checks: ...] *)
Definition check_content (content : string) (st : progress) : progress :=
  foldl (λ st c,
           if contains c.1 content then (st.1, (st.2 ++ [found c.2])%list)
           else (false, (st.2 ++ [not_found c.2])%list))
        st checks.

(** Everything before the look into agent.py. *)
Definition check_paths : progress :=
  let st := (true, ["🧪 Verifying 5.5-advanced-sessions setup..."; rule]) in
  let st := say (CLI.NL ++ "📁 Checking folder structure...") st in
  let st := check_all check_directory folders st in
  let st := say (CLI.NL ++ "📄 Checking agent files...") st in
  let st := check_all check_file agent_files st in
  let st := say (CLI.NL ++ "🎨 Checking Web UI files...") st in
  let st := check_all check_file webui_files st in
  let st := say (CLI.NL ++ "🔌 Checking REST API files...") st in
  let st := check_all check_file api_files st in
  let st := say (CLI.NL ++ "⌨️ Checking CLI files...") st in
  let st := check_all check_file cli_files st in
  let st := say (CLI.NL ++ "🚀 Checking example files...") st in
  let st := check_all check_file example_files st in
  let st := say (CLI.NL ++ "📚 Checking documentation...") st in
  let st := check_all check_file doc_files st in
  say (CLI.NL ++ "🔍 Checking agent configuration...") st.

(** The summary and the value returned. *)
Definition summary (st : progress) : list string * Z :=
  let out := (st.2 ++ [(CLI.NL ++ rule)%string])%list in
  if st.1
  then ((out ++ ["✅ All checks passed! You're ready to go!";
                 (CLI.NL ++ "🚀 Next steps:")%string;
                 "  1. Make sure .env has your GOOGLE_API_KEY";
                 "  2. Run: adk web";
                 "  3. Choose a method and create sessions!";
                 (CLI.NL ++ "📖 Read QUICKSTART.md for detailed instructions")%string;
                 rule])%list, 0%Z)
  else ((out ++ ["❌ Some checks failed!";
                 (CLI.NL ++ "🔧 Please fix the issues above and run again")%string;
                 rule])%list, 1%Z).

(** [main]: the lines printed, and the value returned or the exception
    raised. *)
Definition main : list string * (exn + Z) :=
  let st := check_paths in
  if path_exists fs agent_file then
    match read_text fs agent_file with
    | inl e => (st.2, inl e)
    | inr content =>
        let r := summary (check_content content st) in (r.1, inr r.2)
    end
  else let r := summary st in (r.1, inr r.2).

End Checks.

End VerifySetup.

(** A file system with every path present, every file holding [content]. *)
Definition all_there (content : string) : VerifySetup.filesystem :=
  VerifySetup.Filesystem (λ _, true) (λ _, true) (λ _, inr content).

Definition slash (a b : string) : string := a ++ "/" ++ b.

(** ** The clean-up of example_3_session_management (examples.py) *)

Module Examples.

Section Cleanup.
(** [s[:16]] *)
Variable head16 : string → string.

(** The body of the loop, for one session id. *)
Definition delete_one (manager : SessionManager.t) (session_id : string)
    : coro unit :=
  try_except
    (_ ← SessionManager.delete_session manager session_id;
     Say ("✅ Deleted session " ++ head16 session_id ++ "...") (Ret tt))
    (λ e, Say ("❌ Failed to delete: " ++ str_exn e) (Ret tt)).

(** [for session_id in created_sessions: try: ... except Exception as e: ...] *)
Fixpoint cleanup (manager : SessionManager.t) (created_sessions : list string)
    : coro unit :=
  match created_sessions with
  | [] => Ret tt
  | session_id :: rest =>
      _ ← delete_one manager session_id; cleanup manager rest
  end.

End Cleanup.

End Examples.

(** * Properties of single calls *)

Section Run.
Context {A : Type}.
Implicit Types (c : coro A) (w : world) (net : remote).

Lemma run_settled net c w ls r :
  settled c = Some (ls, r) →
  run net c w = (r, World (sent w) (console w ++ ls)%list).
Proof.
  revert w ls r. induction c as [a|e|l c IH|r' k _|r' k _]; intros w ls r; simpl.
  - intros [= <- <-]. by rewrite app_nil_r; destruct w.
  - intros [= <- <-]. by rewrite app_nil_r; destruct w.
  - destruct (settled c) as [[ls' r0]|] eqn:E; simpl; [|done].
    intros [= <- <-]. rewrite (IH _ _ _ eq_refl). simpl.
    by rewrite <- app_assoc.
  - done.
  - done.
Qed.

(** One blocking exchange followed by a continuation without exchanges
    sends exactly its request. *)
Lemma issued_call net r (k : exchange → coro A) w :
  (∀ x, is_Some (settled (k x))) →
  issued net (Call r k) w = [r].
Proof.
  intros Hk. unfold issued. simpl.
  destruct (Hk (net (sent w) r)) as [[ls res] E].
  rewrite (run_settled _ _ _ _ _ E). simpl.
  by rewrite drop_app_length.
Qed.

Lemma issued_await net r (k : exchange → coro A) w :
  (∀ x, is_Some (settled (k x))) →
  issued net (Await r k) w = [r].
Proof.
  intros Hk. unfold issued. simpl.
  destruct (Hk (net (sent w) r)) as [[ls res] E].
  rewrite (run_settled _ _ _ _ _ E). simpl.
  by rewrite drop_app_length.
Qed.

End Run.

Lemma settled_or_none label r : is_Some (settled (or_none label r)).
Proof. destruct r; simpl; eauto. Qed.

Lemma quiet_ret {A} (a : A) : quiet (Ret a).
Proof. by eexists. Qed.

Lemma quiet_raise {A} e : quiet (@Raise A e).
Proof. by eexists. Qed.

Lemma quiet_lift {A} (r : exn + A) : quiet (lift r).
Proof. destruct r; by eexists. Qed.

Lemma quiet_say {A} l (c : coro A) : quiet c → quiet (Say l c).
Proof. intros [[ls r] E]. unfold quiet. simpl. rewrite E. by eexists. Qed.

Lemma quiet_say_inv {A} l (c : coro A) : quiet (Say l c) → quiet c.
Proof.
  intros [p E]. simpl in E. unfold quiet. destruct (settled c); [by eexists|done].
Qed.

Lemma quiet_bind {A B} (c : coro A) (f : A → coro B) :
  quiet c → (∀ a, quiet (f a)) → quiet (bind c f).
Proof.
  induction c as [a|e|l c IH|r k _|r k _]; intros Hc Hf; simpl.
  - apply Hf.
  - apply quiet_raise.
  - apply quiet_say. apply IH; [|done]. by eapply quiet_say_inv.
  - by destruct Hc.
  - by destruct Hc.
Qed.

Lemma quiet_try_except {A} (c : coro A) h :
  quiet c → (∀ e, quiet (h e)) → quiet (try_except c h).
Proof.
  induction c as [a|e|l c IH|r k _|r k _]; intros Hc Hh; simpl.
  - apply quiet_ret.
  - apply Hh.
  - apply quiet_say. apply IH; [|done]. by eapply quiet_say_inv.
  - by destruct Hc.
  - by destruct Hc.
Qed.

Ltac quiet_solver :=
  repeat first
    [ apply quiet_ret | apply quiet_raise | apply quiet_lift
    | apply quiet_say | apply quiet_try_except; [|intros ?]
    | apply quiet_bind; [|intros ?]
    | case_bool_decide | case_match ].

(** Every method of [SessionManager] that is not refused at the call has
    the shape "one blocking exchange, then no more". *)
Lemma send_message_issued net self session_id message w :
  issued net (SessionManager.send_message self session_id message) w
  = [SessionManager.send_message_request self session_id message].
Proof.
  apply issued_call. intros [resp|f]; simpl; quiet_solver.
Qed.

Lemma send_message_outcome net self session_id message w :
  outcome net (SessionManager.send_message self session_id message) w
  = match net (sent w) (SessionManager.send_message_request self session_id message) with
    | Failed f =>
        inl (SessionManager.send_message_except self session_id (failure_exn f))
    | Responded resp =>
        match raise_for_status resp with
        | inl e => inl (SessionManager.send_message_except self session_id e)
        | inr _ =>
            match response_json resp with
            | inl e => inl (SessionManager.send_message_except self session_id e)
            | inr data =>
                match reply_text data with
                | inl e => inl (SessionManager.send_message_except self session_id e)
                | inr v => inr v
                end
            end
        end
    end.
Proof.
  unfold outcome. simpl.
  destruct (net _ _) as [resp|f]; simpl; [|done].
  destruct (raise_for_status resp); simpl; [done|].
  destruct (response_json resp) as [e|data]; simpl; [done|].
  by destruct (reply_text data).
Qed.

Lemma aio_send_message_outcome net session_id message w :
  outcome net (AsyncSessionClient.send_message session_id message) w
  = match chat_reply aio_raise_for_status (net (sent w) (chat_request session_id message)) with
    | inl _ => inr JNull
    | inr v => inr v
    end.
Proof.
  unfold outcome. simpl. by destruct (chat_reply _ _).
Qed.

Lemma raise_for_status_ok resp :
  ¬ (400 ≤ status_code resp < 600)%Z → raise_for_status resp = inr tt.
Proof. intros H. unfold raise_for_status. by rewrite bool_decide_eq_false_2. Qed.

Lemma raise_for_status_error resp :
  (400 ≤ status_code resp < 600)%Z →
  raise_for_status resp = inl (ReqHTTPError (status_code resp) (text resp)).
Proof. intros H. unfold raise_for_status. by rewrite bool_decide_eq_true_2. Qed.

Lemma aio_raise_for_status_ok resp :
  (status_code resp < 400)%Z → aio_raise_for_status resp = inr tt.
Proof.
  intros H. unfold aio_raise_for_status. rewrite bool_decide_eq_false_2; [done|lia].
Qed.

Lemma reply_text_object d :
  reply_text (JObj d)
  = inr (match d !! "response" with
         | Some v => v
         | None => match d !! "text" with Some v => v | None => JStr "" end
         end).
Proof.
  unfold reply_text. simpl. by destruct (d !! "response"), (d !! "text").
Qed.

(** * Claims about single calls *)

(** C7. For a 2xx chat reply whose body is an object, [send_message]
    returns the value of the [response] field when the field is present
    and otherwise the value of the [text] field.  This holds for
    [SessionManager.send_message] and for
    [AsyncSessionClient.send_message]. *)
Theorem send_message_prefers_response
    (self : SessionManager.t) (net : remote) (w : world)
    (session_id message : string) (resp : response) (d : gmap string json) :
  net (sent w) (SessionManager.send_message_request self session_id message)
    = Responded resp →
  net (sent w) (chat_request session_id message) = Responded resp →
  (200 ≤ status_code resp < 300)%Z →
  json_body resp = Some (JObj d) →
  (∀ v, d !! "response" = Some v →
        outcome net (SessionManager.send_message self session_id message) w = inr v
        ∧ outcome net (AsyncSessionClient.send_message session_id message) w = inr v)
  ∧ (d !! "response" = None → ∀ v, d !! "text" = Some v →
        outcome net (SessionManager.send_message self session_id message) w = inr v
        ∧ outcome net (AsyncSessionClient.send_message session_id message) w = inr v).
Proof.
  intros Hm Ha Hst Hbody.
  assert (outcome net (SessionManager.send_message self session_id message) w
          = reply_text (JObj d)) as ->.
  { rewrite send_message_outcome, Hm, raise_for_status_ok by lia.
    unfold response_json. rewrite Hbody. by rewrite reply_text_object. }
  assert (outcome net (AsyncSessionClient.send_message session_id message) w
          = reply_text (JObj d)) as ->.
  { rewrite aio_send_message_outcome, Ha. unfold chat_reply.
    rewrite aio_raise_for_status_ok by lia.
    unfold response_json. rewrite Hbody. by rewrite reply_text_object. }
  rewrite reply_text_object. split.
  - intros v ->. done.
  - intros -> v ->. done.
Qed.

Lemma send_message_prefers_response_witness :
  outcome accepting (SessionManager.send_message SessionManager.default "s-1" "Hi!") fresh
    = inr (JStr "ok")
  ∧ outcome accepting (AsyncSessionClient.send_message "s-1" "Hi!") fresh
    = inr (JStr "ok").
Proof.
  refine (proj1 (send_message_prefers_response SessionManager.default accepting fresh
           "s-1" "Hi!" (Response 200 ""
              (Some (JObj (<["response" := JStr "ok"]> {[ "session_id" := JStr "s-1" ]}))))
           (<["response" := JStr "ok"]> {[ "session_id" := JStr "s-1" ]}) _ _ _ _)
           (JStr "ok") _); try reflexivity.
  simpl. lia.
Defined.

(** C9. The request [SessionManager.send_message] issues is built from
    the arguments of the call alone: whatever the client configuration,
    the remote service and the requests already exchanged, the call
    issues one request whose body is the object with exactly the two
    entries [session_id] and [message] of this call. *)
Theorem send_message_body_is_own
    (self1 self2 : SessionManager.t) (net1 net2 : remote) (w1 w2 : world)
    (session_id message : string) :
  req_json <$> issued net1 (SessionManager.send_message self1 session_id message) w1
    = [Some (chat_payload session_id message)]
  ∧ req_json <$> issued net2 (SessionManager.send_message self2 session_id message) w2
    = [Some (chat_payload session_id message)]
  ∧ ∃ d, chat_payload session_id message = JObj d
         ∧ dom d = ({["session_id"; "message"]} : gset string)
         ∧ d !! "session_id" = Some (JStr session_id)
         ∧ d !! "message" = Some (JStr message).
Proof.
  rewrite !send_message_issued. split; [done|]. split; [done|].
  eexists. split; [reflexivity|]. split; [|split].
  - rewrite dom_insert_L, dom_singleton_L. set_solver.
  - by rewrite lookup_insert_ne, lookup_singleton_eq.
  - by rewrite lookup_insert_eq.
Qed.

(** C6 (as stated, refuted).  A 300 reply is neither 2xx nor 404, yet
    [SessionManager.send_message] does not fail with any error: the body
    is decoded and its [response] field returned. *)
Lemma send_message_300_not_rejected :
  ¬ (¬ (200 ≤ 300 < 300)%Z → 300%Z ≠ 404%Z →
     ∃ e, outcome multiple_choices
            (SessionManager.send_message SessionManager.default "s-1" "Hi!") fresh
          = inl e).
Proof.
  intros H. destruct (H ltac:(lia) ltac:(lia)) as [e He].
  rewrite send_message_outcome in He. vm_compute in He. discriminate He.
Qed.

(** C6 (amended).  When the remote answers 404, [SessionManager.send_message]
    raises [ValueError("Session not found: <id>")]; for every other status
    from 400 to 599 it raises
    [ValueError("Failed to send message: <status> - <body>")], and the two
    messages never coincide.  A status outside 400-599 is not treated as
    a failure: whenever the body of such a reply decodes to an object,
    the call returns its [response] entry, or else its [text] entry, or
    else the empty string. *)
Theorem send_message_http_errors
    (self : SessionManager.t) (net : remote) (w : world)
    (session_id message : string) (resp : response) :
  net (sent w) (SessionManager.send_message_request self session_id message)
    = Responded resp →
  (status_code resp = 404%Z →
     outcome net (SessionManager.send_message self session_id message) w
     = inl (SessionManager.session_not_found session_id))
  ∧ ((400 ≤ status_code resp < 600)%Z → status_code resp ≠ 404%Z →
     outcome net (SessionManager.send_message self session_id message) w
     = inl (SessionManager.request_failed "send message" (status_code resp) (text resp)))
  ∧ (∀ st body,
       SessionManager.session_not_found session_id
       ≠ SessionManager.request_failed "send message" st body)
  ∧ (¬ (400 ≤ status_code resp < 600)%Z →
     ∀ d, json_body resp = Some (JObj d) →
          outcome net (SessionManager.send_message self session_id message) w
          = inr (match d !! "response" with
                 | Some v => v
                 | None => match d !! "text" with Some v => v | None => JStr "" end
                 end)).
Proof.
  intros Hnet. rewrite send_message_outcome, Hnet. split; [|split; [|split]].
  - intros H404. rewrite raise_for_status_error by lia. simpl.
    by rewrite bool_decide_eq_true_2.
  - intros Hrange Hne. rewrite raise_for_status_error by done. simpl.
    by rewrite bool_decide_eq_false_2.
  - intros st body. unfold SessionManager.session_not_found,
      SessionManager.request_failed. simpl. discriminate.
  - intros Hrange d Hbody. rewrite raise_for_status_ok by done.
    unfold response_json. rewrite Hbody. by rewrite reply_text_object.
Qed.

Lemma send_message_http_errors_witness :
  outcome (λ _ _, Responded (Response 404 "no such session" None))
    (SessionManager.send_message SessionManager.default "s-9" "Hi!") fresh
  = inl (ValueError "Session not found: s-9")
  ∧ outcome multiple_choices
      (SessionManager.send_message SessionManager.default "s-1" "Hi!") fresh
    = inr (JStr "cached").
Proof.
  split.
  - refine (proj1 (send_message_http_errors SessionManager.default
                     (λ _ _, Responded (Response 404 "no such session" None)) fresh
                     "s-9" "Hi!" (Response 404 "no such session" None) _) _);
      reflexivity.
  - assert (¬ (400 ≤ 300 < 600)%Z) as Hst by lia.
    rewrite (proj2 (proj2 (proj2
               (send_message_http_errors SessionManager.default multiple_choices
                  fresh "s-1" "Hi!"
                  (Response 300 cached_text
                     (Some (JObj {[ "response" := JStr "cached" ]})))
                  eq_refl)))
               Hst {[ "response" := JStr "cached" ]} eq_refl).
    reflexivity.
Defined.

Lemma create_session_issued net self agent_id user_name user_email
    user_preferences kwargs w :
  SessionManager.clash kwargs = None →
  issued net (SessionManager.create_session self agent_id user_name user_email
                user_preferences kwargs) w
  = [SessionManager.create_session_request self agent_id
       (kwargs ∪ base_state user_name user_email user_preferences)].
Proof.
  intros Hc. unfold SessionManager.create_session. rewrite Hc.
  apply issued_call. intros [resp|f]; simpl; quiet_solver.
Qed.

Lemma aio_create_session_issued net user_name user_email user_preferences w :
  issued net (AsyncSessionClient.create_session user_name user_email user_preferences) w
  = [create_request (base_state user_name user_email user_preferences)].
Proof. apply issued_await. intros x. apply settled_or_none. Qed.

Lemma submit_without_name net user_id user_email user_preferences
    conversation_context w :
  run net (WebForm.submit user_id "" user_email user_preferences conversation_context) w
  = (inr None,
     World (sent w) (console w ++ ["❌ User ID and User Name are required!"])%list).
Proof.
  unfold WebForm.submit. replace (nonempty "") with false by done.
  by rewrite orb_true_r.
Qed.




Lemma list_sessions_outcome net self agent_id w :
  outcome net (SessionManager.list_sessions self agent_id) w
  = match net (sent w) (SessionManager.list_sessions_request self) with
    | Failed f => inl (SessionManager.list_sessions_except self (failure_exn f))
    | Responded resp =>
        match raise_for_status resp with
        | inl e => inl (SessionManager.list_sessions_except self e)
        | inr _ =>
            match response_json resp with
            | inl e => inl (SessionManager.list_sessions_except self e)
            | inr data =>
                match py_get data "sessions" (JArr []) with
                | inl e => inl (SessionManager.list_sessions_except self e)
                | inr sessions =>
                    if truthy agent_id then
                      match SessionManager.filter_sessions (default "" agent_id) sessions with
                      | inl e => inl (SessionManager.list_sessions_except self e)
                      | inr kept => inr kept
                      end
                    else inr sessions
                end
            end
        end
    end.
Proof.
  unfold outcome. simpl.
  destruct (net _ _) as [resp|f]; simpl; [|done].
  destruct (raise_for_status resp); simpl; [done|].
  destruct (response_json resp) as [e|data]; simpl; [done|].
  destruct (py_get data "sessions" (JArr [])) as [e|sessions]; simpl; [done|].
  destruct agent_id as [a|]; simpl; [|done].
  destruct (negb (String.eqb a "")); simpl; [|done].
  by destruct (SessionManager.filter_sessions a sessions).
Qed.

Lemma keep_agent_objects agent_id l :
  Forall is_object l →
  SessionManager.keep_agent agent_id l = inr (List.filter (has_agent agent_id) l).
Proof.
  intros Hobj. induction Hobj as [|s l [d ->] Hl IH]; simpl; [done|].
  rewrite IH. by destruct (SessionManager.agent_is agent_id d).
Qed.

Lemma truthy_false agent_id :
  truthy agent_id = false ↔ agent_id = None ∨ agent_id = Some "".
Proof.
  destruct agent_id as [a|]; simpl; [|split; [by left|done]].
  destruct (String.eqb_spec a "") as [->|Hne]; simpl.
  - split; [by right|done].
  - split; [done|]. by intros [|[= ->]].
Qed.

(** C8 (as stated, refuted).  Called with the filter [""],
    [list_sessions] does not return the sessions whose [agent_id] is
    [""]: the filter is skipped and the whole remote list comes back. *)
Lemma list_sessions_empty_filter_keeps_all :
  ¬ (outcome listing (SessionManager.list_sessions SessionManager.default (Some "")) fresh
     = inr (JArr (List.filter (has_agent "") [one_session]))).
Proof.
  rewrite list_sessions_outcome. vm_compute. discriminate.
Qed.

(** C8 (amended).  For a reply that is not an HTTP error and whose body
    is an object: with a non-empty agent filter and a [sessions] entry
    that is a list of objects, [list_sessions] returns, in order, exactly
    the sessions whose [agent_id] equals the filter; with no filter, or
    with the empty string as filter, it returns the [sessions] entry
    unchanged (the empty list when the entry is missing). *)
Theorem list_sessions_filter
    (self : SessionManager.t) (net : remote) (w : world)
    (resp : response) (d : gmap string json) :
  net (sent w) (SessionManager.list_sessions_request self) = Responded resp →
  ¬ (400 ≤ status_code resp < 600)%Z →
  json_body resp = Some (JObj d) →
  (∀ a l, a ≠ "" → d !! "sessions" = Some (JArr l) → Forall is_object l →
     outcome net (SessionManager.list_sessions self (Some a)) w
     = inr (JArr (List.filter (has_agent a) l)))
  ∧ (∀ agent_id, agent_id = None ∨ agent_id = Some "" →
     outcome net (SessionManager.list_sessions self agent_id) w
     = inr (default (JArr []) (d !! "sessions"))).
Proof.
  intros Hnet Hst Hbody. split.
  - intros a l Ha Hl Hobj.
    rewrite list_sessions_outcome, Hnet, raise_for_status_ok by done.
    unfold response_json. rewrite Hbody. simpl. rewrite Hl. simpl.
    destruct (String.eqb_spec a ""); [done|]. simpl.
    by rewrite keep_agent_objects.
  - intros agent_id Hfalsy. apply truthy_false in Hfalsy.
    rewrite list_sessions_outcome, Hnet, raise_for_status_ok by done.
    unfold response_json. rewrite Hbody. simpl. by rewrite Hfalsy.
Qed.

Lemma list_sessions_filter_witness :
  outcome listing (SessionManager.list_sessions SessionManager.default (Some "helper")) fresh
  = inr (JArr (List.filter (has_agent "helper") [one_session])).
Proof.
  refine (proj1 (list_sessions_filter SessionManager.default listing fresh
                   (Response 200 "" (Some (JObj {[ "sessions" := JArr [one_session] ]})))
                   {[ "sessions" := JArr [one_session] ]} _ _ _)
                "helper" [one_session] _ _ _).
  - reflexivity.
  - simpl. lia.
  - reflexivity.
  - discriminate.
  - reflexivity.
  - repeat constructor. by eexists.
Defined.

Lemma posted_state_create_session_request self agent_id state :
  posted_state (SessionManager.create_session_request self agent_id state) = Some state.
Proof.
  unfold posted_state, SessionManager.create_session_request, create_payload. simpl.
  by rewrite lookup_insert_eq.
Qed.

Lemma posted_state_create_request state :
  posted_state (create_request state) = Some state.
Proof.
  unfold posted_state, create_request, create_payload. simpl.
  by rewrite lookup_insert_eq.
Qed.

Lemma lookup_set_if_truthy key v (m : gmap string json) k :
  set_if_truthy key v m !! k
  = if decide (k = key)
    then (if truthy v then JStr <$> v else m !! k)
    else m !! k.
Proof.
  unfold set_if_truthy. destruct v as [s|]; [|by case_decide].
  destruct (truthy (Some s)).
  - case_decide as Hk; [subst; by rewrite lookup_insert_eq|by rewrite lookup_insert_ne].
  - by case_decide.
Qed.

Lemma base_state_lookup user_name user_email user_preferences :
  base_state user_name user_email user_preferences !! "user_name"
    = Some (JStr user_name)
  ∧ base_state user_name user_email user_preferences !! "user_email"
    = (if truthy user_email then JStr <$> user_email else None)
  ∧ base_state user_name user_email user_preferences !! "user_preferences"
    = (if truthy user_preferences then JStr <$> user_preferences else None)
  ∧ dom (base_state user_name user_email user_preferences)
    ⊆ ({["user_name"; "user_email"; "user_preferences"]} : gset string).
Proof.
  unfold base_state. repeat split.
  - rewrite !lookup_set_if_truthy. by repeat case_decide.
  - rewrite !lookup_set_if_truthy. by repeat case_decide.
  - rewrite !lookup_set_if_truthy. by repeat case_decide.
  - intros k Hk. apply elem_of_dom in Hk as [v Hv].
    rewrite !lookup_set_if_truthy in Hv.
    repeat case_decide; subst; try set_solver.
    apply lookup_singleton_Some in Hv as [<- _]. set_solver.
Qed.

Lemma clash_None kwargs k :
  SessionManager.clash kwargs = None →
  k ∈ SessionManager.create_session_parameters →
  kwargs !! k = None.
Proof.
  unfold SessionManager.clash. intros Hc Hk.
  apply fmap_None in Hc. rewrite list_find_None in Hc.
  rewrite Forall_forall in Hc. specialize (Hc k Hk).
  destruct (kwargs !! k) eqn:E; [|done].
  exfalso. apply Hc. by apply bool_decide_eq_true_2.
Qed.

(** C10 (as stated, refuted).  [conversation_context] reaches
    [SessionManager.create_session] through [**kwargs], and
    [state.update(kwargs)] copies it as it is: given the empty string, the
    posted state still has the entry. *)
Lemma create_session_posts_empty_context :
  ¬ ∃ state,
      posted_state <$> issued accepting
        (SessionManager.create_session SessionManager.default AGENT_ID "Alice"
           None None {[ "conversation_context" := JStr "" ]}) fresh
      = [Some state]
      ∧ only_truthy_optionals state.
Proof.
  intros (state & Hposted & Htruthy).
  rewrite create_session_issued in Hposted by done.
  simpl in Hposted. rewrite posted_state_create_session_request in Hposted.
  injection Hposted as <-.
  specialize (Htruthy "conversation_context" (JStr "")).
  discriminate Htruthy.
  - unfold optional_keys. set_solver.
  - done.
Qed.

(** C10 (amended).  The state posted by [SessionManager.create_session]
    always has [user_name], with the value supplied; it has [user_email],
    respectively [user_preferences], exactly when the supplied value is
    truthy (an empty string is left out); every further keyword argument,
    [conversation_context] included, is copied with the value supplied,
    truthy or not.  [AsyncSessionClient.create_session] posts the same
    state without further keywords. *)
Theorem create_session_state
    (self : SessionManager.t) (net : remote) (w : world)
    (agent_id user_name : string) (user_email user_preferences : option string)
    (kwargs : gmap string json) :
  SessionManager.clash kwargs = None →
  (∃ state,
     posted_state <$> issued net
       (SessionManager.create_session self agent_id user_name user_email
          user_preferences kwargs) w = [Some state]
     ∧ state !! "user_name" = Some (JStr user_name)
     ∧ state !! "user_email" = (if truthy user_email then JStr <$> user_email else None)
     ∧ state !! "user_preferences"
       = (if truthy user_preferences then JStr <$> user_preferences else None)
     ∧ (∀ k v, kwargs !! k = Some v → state !! k = Some v)
     ∧ (∀ k, k ∉ ["user_name"; "user_email"; "user_preferences"] →
             state !! k = kwargs !! k))
  ∧ (∃ state,
       posted_state <$> issued net
         (AsyncSessionClient.create_session user_name user_email user_preferences) w
       = [Some state]
       ∧ state !! "user_name" = Some (JStr user_name)
       ∧ state !! "user_email" = (if truthy user_email then JStr <$> user_email else None)
       ∧ state !! "user_preferences"
         = (if truthy user_preferences then JStr <$> user_preferences else None)
       ∧ dom state ⊆ ({["user_name"; "user_email"; "user_preferences"]} : gset string)).
Proof.
  intros Hc.
  destruct (base_state_lookup user_name user_email user_preferences)
    as (Hname & Hemail & Hprefs & Hdom).
  assert (∀ k, k ∈ ["user_name"; "user_email"; "user_preferences"] →
               kwargs !! k = None) as Hfree.
  { intros k Hk. apply clash_None; [done|].
    unfold SessionManager.create_session_parameters. set_solver. }
  split.
  - exists (kwargs ∪ base_state user_name user_email user_preferences).
    split; [|split; [|split; [|split; [|split]]]].
    + rewrite create_session_issued by done. simpl.
      by rewrite posted_state_create_session_request.
    + rewrite lookup_union_r; [done|]. apply Hfree. set_solver.
    + rewrite lookup_union_r; [done|]. apply Hfree. set_solver.
    + rewrite lookup_union_r; [done|]. apply Hfree. set_solver.
    + intros k v Hk. by apply lookup_union_Some_l.
    + intros k Hk.
      assert (base_state user_name user_email user_preferences !! k = None) as Hb.
      { apply not_elem_of_dom. intros Hin. apply Hdom in Hin. set_solver. }
      rewrite lookup_union, Hb. by destruct (kwargs !! k).
  - exists (base_state user_name user_email user_preferences).
    split; [|done].
    rewrite aio_create_session_issued. simpl.
    by rewrite posted_state_create_request.
Qed.

Lemma create_session_state_witness :
  ∃ state,
    posted_state <$> issued accepting
      (SessionManager.create_session SessionManager.default AGENT_ID "Alice"
         (Some "") None {[ "conversation_context" := JStr "" ]}) fresh = [Some state]
    ∧ state !! "user_name" = Some (JStr "Alice")
    ∧ state !! "user_email" = None
    ∧ state !! "conversation_context" = Some (JStr "").
Proof.
  assert (SessionManager.clash {[ "conversation_context" := JStr "" ]} = None)
    as Hclash by reflexivity.
  destruct (create_session_state SessionManager.default accepting fresh AGENT_ID
              "Alice" (Some "") None {[ "conversation_context" := JStr "" ]}
              Hclash)
    as [(state & Hposted & Hname & Hemail & _ & Hkw & _) _].
  exists state. repeat split; [done|done|done|].
  apply Hkw. reflexivity.
Defined.

(** * Batches on the event loop *)

Lemma SessionClient_async o :
  SessionClient true o = Await (op_request o) (resume true o).
Proof. by destruct o. Qed.

Lemma SessionClient_sync o :
  SessionClient false o = Call (op_request o) (resume false o).
Proof. by destruct o. Qed.

Lemma alone_eq b o x : alone b o x = inr (from_attempt (op_attempt b o x)).
Proof.
  unfold alone, outcome.
  destruct b; [rewrite SessionClient_async|rewrite SessionClient_sync];
    simpl; unfold resume; by destruct (op_attempt _ o x).
Qed.

Lemma note_nil {A} (st : loop A) : note [] st = st.
Proof. destruct st. unfold note. simpl. by rewrite app_nil_r. Qed.

Lemma step_or_none net i label r (st : loop json) :
  step net i (or_none label r) st
  = finish i (inr (from_attempt r)) (note (complaint label r) st).
Proof. destruct r; simpl; [done|]. by rewrite note_nil. Qed.

Lemma results_filled {A} (f : nat → A) (l : list nat) :
  results ((λ j, Some (inr (f j))) <$> l) = Some (f <$> l).
Proof.
  unfold results. induction l as [|j l IH]; [done|].
  rewrite !fmap_cons. simpl. rewrite IH. done.
Qed.

Lemma cells_filled {A} (f : nat → A) (cs : list (option (exn + A))) n :
  length cs = n →
  (∀ j, (j < n)%nat → cs !! j = Some (Some (inr (f j)))) →
  cs = (λ j, Some (inr (f j))) <$> seq 0 n.
Proof.
  intros Hlen Hcs. apply list_eq. intros j.
  rewrite list_lookup_fmap. destruct (decide (j < n)%nat) as [Hj|Hj].
  - rewrite Hcs by done. by rewrite lookup_seq_lt.
  - rewrite lookup_ge_None_2 by lia. by rewrite lookup_seq_ge by lia.
Qed.

Lemma in_flight_begins c (l : list nat) :
  foldl (λ n e, match e with Begin _ => S n | End _ => pred n end) c (Begin <$> l)
  = (c + length l)%nat.
Proof.
  revert c. induction l as [|x l IH]; intros c; simpl; [lia|].
  rewrite IH. lia.
Qed.

Lemma in_flight_ends c (l : list nat) :
  foldl (λ n e, match e with Begin _ => S n | End _ => pred n end) c (End <$> l)
  = (c - length l)%nat.
Proof.
  revert c. induction l as [|x l IH]; intros c; simpl; [lia|].
  rewrite IH. lia.
Qed.

Lemma in_flight_spread n (order : list nat) k :
  in_flight (take k ((Begin <$> seq 0 n) ++ (End <$> order)))
  = (min k n - min (k - n) (length order))%nat.
Proof.
  unfold in_flight.
  rewrite take_app, foldl_app, length_fmap, length_seq, <- !fmap_take.
  rewrite in_flight_begins, in_flight_ends, !length_take, length_seq. lia.
Qed.

Lemma precedes_iff e1 e2 tr :
  precedes e1 e2 tr ↔ precedesb e1 e2 tr = true.
Proof.
  induction tr as [|e tr IH]; simpl.
  - split; [|done]. by intros (a & b & Ha & _).
  - rewrite orb_true_iff, andb_true_iff, !bool_decide_eq_true, <- IH.
    split.
    + intros (a & b & Ha & Hb & Hab). destruct a as [|a].
      * left. simpl in Ha. injection Ha as ->. split; [done|].
        destruct b as [|b]; [lia|]. simpl in Hb.
        by eapply list_elem_of_lookup_2.
      * right. destruct b as [|b]; [lia|]. exists a, b. simpl in *.
        repeat split; [done|done|lia].
    + intros [[-> Hin]|(a & b & Ha & Hb & Hab)].
      * apply list_elem_of_lookup_1 in Hin as [b Hb].
        exists 0, (S b). repeat split; [done|lia].
      * exists (S a), (S b). repeat split; [done|done|lia].
Qed.

#[export] Instance precedes_dec e1 e2 tr : Decision (precedes e1 e2 tr).
Proof.
  destruct (precedesb e1 e2 tr) eqn:E.
  - left. by apply precedes_iff.
  - right. intros H. apply precedes_iff in H. congruence.
Defined.

Section Batch.
Variable net : network.
Variable ops : list op.

Local Abbreviation n := (length ops).

Lemma start_async (post : list op) i (st : loop json) :
  let st' := start net i (SessionClient true <$> post) st in
  (∀ j, waiting st' !! j
        = if decide (i ≤ j < i + length post)%nat
          then (λ o, (op_request o, resume true o)) <$> post !! (j - i)%nat
          else waiting st !! j)
  ∧ cells st' = cells st
  ∧ nfinished st' = nfinished st
  ∧ outer st' = outer st
  ∧ trace st' = (trace st ++ (Begin <$> seq i (length post)))%list
  ∧ printed st' = printed st.
Proof.
  revert i st. induction post as [|o post IH]; intros i st; csimpl.
  - repeat split; [|by rewrite app_nil_r].
    intros j. case_decide; [lia|done].
  - rewrite SessionClient_async. csimpl.
    destruct (IH (S i)
      (Loop (<[i:=(op_request o, resume true o)]> (waiting st)) (cells st)
            (nfinished st) (outer st) (trace st ++ [Begin i])%list (printed st)))
      as (Hw & Hc & Hn & Ho & Ht & Hp).
    csimpl in *. repeat split; try done.
    + intros j. rewrite Hw. destruct (decide (j = i)) as [->|Hne].
      * rewrite lookup_insert_eq. repeat case_decide; try lia.
        by rewrite Nat.sub_diag.
      * rewrite lookup_insert_ne by done. repeat case_decide; try lia; try done.
        replace (j - i)%nat with (S (j - S i)) by lia. done.
    + rewrite Ht. by rewrite <- app_assoc.
Qed.

Lemma started_async :
  async_inv net ops [] (start net 0 (SessionClient true <$> ops) (spawn n)).
Proof.
  destruct (start_async ops 0 (spawn n)) as (Hw & Hc & Hn & Ho & Ht & Hp).
  unfold async_inv. simpl in *. repeat split.
  - intros j. rewrite Hw.
    destruct (decide (0 ≤ j < length ops)%nat) as [Hj|Hj]; [by rewrite Nat.sub_0_r|].
    rewrite lookup_empty, lookup_ge_None_2; [done|lia].
  - rewrite Hc. apply length_replicate.
  - intros j Hj. rewrite Hc. by rewrite lookup_replicate_2.
  - done.
  - rewrite Ht. by rewrite app_nil_r.
  - done.
  - rewrite Ho. destruct (decide (0 = n)%nat) as [H0|H0].
    + rewrite bool_decide_eq_true_2 by done. by rewrite <- H0.
    + by rewrite bool_decide_eq_false_2 by done.
Qed.

Lemma delivered_async done i (st : loop json) :
  async_inv net ops done st →
  i ∉ done → (i < n)%nat → (length done < n)%nat →
  (S (length done) = n → ∀ j, (j < n)%nat → j ∈ (done ++ [i])%list) →
  async_inv net ops (done ++ [i]) (deliver net st i).
Proof.
  intros (Hw & Hlen & Hc & Hn & Ht & Hp & Ho) Hi Hin Hlt Hall.
  destruct (lookup_lt_is_Some_2 ops i Hin) as [o Hop].
  unfold deliver. rewrite Hw, decide_False, Hop by done. simpl.
  unfold resume at 1. rewrite step_or_none.
  assert (from_attempt (op_attempt true o (net i (op_request o))) = slot true net ops i)
    as -> by (unfold slot; by rewrite Hop).
  assert (complaint (op_label o) (op_attempt true o (net i (op_request o)))
          = says true net ops i)
    as -> by (unfold says; by rewrite Hop).
  unfold async_inv, finish, note. simpl. repeat split.
  - intros j. destruct (decide (j = i)) as [->|Hne].
    + rewrite lookup_delete_eq. rewrite decide_True; [done|set_solver].
    + rewrite lookup_delete_ne by done. rewrite Hw.
      destruct (decide (j ∈ done)).
      * rewrite decide_True; [done|set_solver].
      * rewrite decide_False; [done|set_solver].
  - by rewrite length_insert.
  - intros j Hj. destruct (decide (j = i)) as [->|Hne].
    + rewrite list_lookup_insert_eq by lia.
      rewrite decide_True; [done|set_solver].
    + rewrite list_lookup_insert_ne by done. rewrite Hc by done.
      destruct (decide (j ∈ done)).
      * rewrite decide_True; [done|set_solver].
      * rewrite decide_False; [done|set_solver].
  - rewrite Hn, length_app. simpl. lia.
  - rewrite Ht, fmap_app, <- app_assoc. done.
  - rewrite Hp, bind_app. simpl. by rewrite app_nil_r.
  - rewrite Ho, decide_False by lia. rewrite Hn, length_insert, Hlen.
    rewrite length_app. simpl.
    destruct (decide (S (length done) = n)) as [Heq|Hne].
    + rewrite bool_decide_eq_true_2 by done.
      rewrite decide_True by lia.
      rewrite (cells_filled (slot true net ops) _ n).
      * by rewrite results_filled.
      * by rewrite length_insert.
      * intros j Hj. specialize (Hall Heq j Hj).
        destruct (decide (j = i)) as [->|Hji].
        -- by rewrite list_lookup_insert_eq by lia.
        -- rewrite list_lookup_insert_ne by done. rewrite Hc by done.
           rewrite decide_True; [done|set_solver].
    + rewrite bool_decide_eq_false_2 by done.
      by rewrite decide_False by lia.
Qed.

Lemma delivered_all_async rest done (st : loop json) :
  async_inv net ops done st →
  (done ++ rest)%list ≡ₚ seq 0 n →
  async_inv net ops (done ++ rest) (foldl (deliver net) st rest).
Proof.
  revert done st. induction rest as [|i rest IH]; intros done st Hinv Hperm.
  - by rewrite app_nil_r.
  - simpl.
    replace (done ++ i :: rest)%list with ((done ++ [i]) ++ rest)%list in *
      by (by rewrite <- app_assoc).
    assert (NoDup ((done ++ [i]) ++ rest)%list) as Hnd.
    { rewrite Hperm. apply NoDup_seq. }
    assert (length ((done ++ [i]) ++ rest)%list = n) as Hlen.
    { rewrite Hperm. apply length_seq. }
    rewrite !length_app in Hlen. simpl in Hlen.
    apply IH; [|done].
    apply delivered_async; [done| | |lia|].
    + apply NoDup_app in Hnd as [Hnd _].
      apply NoDup_app in Hnd as (_ & Hd & _).
      intros Hin. apply (Hd i Hin). set_solver.
    + assert (i ∈ seq 0 n) as Hi by (rewrite <- Hperm; set_solver).
      apply elem_of_seq in Hi. lia.
    + intros Heq j Hj. destruct rest; [|simpl in Hlen; lia].
      rewrite app_nil_r in Hperm. rewrite Hperm. apply elem_of_seq. lia.
Qed.

(** The batch on the aiohttp client. *)
Lemma gather_async order :
  order ≡ₚ seq 0 n →
  async_inv net ops order (run_batch true net order ops).
Proof.
  intros Hperm. unfold run_batch, gather. rewrite length_fmap.
  apply (delivered_all_async order []); [apply started_async|done].
Qed.

Lemma started_sync (post : list op) i (st : loop json) :
  sync_inv net ops i st → drop i ops = post →
  sync_inv net ops n (start net i (SessionClient false <$> post) st).
Proof.
  revert i st. induction post as [|o post IH]; intros i st Hinv Hdrop; simpl.
  - destruct Hinv as (Hle & Hrest).
    assert (n ≤ i)%nat as Hge.
    { apply drop_nil_inv in Hdrop. done. }
    by replace n with i by lia.
  - destruct Hinv as (Hle & Hw & Hlen & Hc & Hn & Ht & Hp & Ho).
    assert (ops !! i = Some o) as Hop.
    { rewrite <- (Nat.add_0_r i), <- lookup_drop, Hdrop. done. }
    assert (i < n)%nat as Hi by (by eapply lookup_lt_Some).
    rewrite SessionClient_sync. simpl. unfold resume at 1. rewrite step_or_none.
    assert (from_attempt (op_attempt false o (net i (op_request o)))
            = slot false net ops i)
      as -> by (unfold slot; by rewrite Hop).
    assert (complaint (op_label o) (op_attempt false o (net i (op_request o)))
            = says false net ops i)
      as -> by (unfold says; by rewrite Hop).
    apply (IH (S i)).
    + unfold sync_inv. rewrite !seq_S. unfold finish, note. simpl. repeat split.
      * lia.
      * done.
      * by rewrite length_insert.
      * intros j Hj. destruct (decide (j = i)) as [->|Hne].
        -- rewrite list_lookup_insert_eq by lia. by rewrite decide_True by lia.
        -- rewrite list_lookup_insert_ne by done. rewrite Hc by done.
           destruct (decide (j < i)%nat).
           ++ by rewrite decide_True by lia.
           ++ by rewrite decide_False by lia.
      * by rewrite Hn.
      * rewrite Ht, bind_app. simpl. done.
      * rewrite Hp, bind_app. simpl. by rewrite app_nil_r.
      * rewrite Ho, decide_False by lia. rewrite Hn, length_insert, Hlen.
        destruct (decide (S i = n)) as [Heq|Hne].
        -- rewrite bool_decide_eq_true_2 by done.
           rewrite (cells_filled (slot false net ops) _ n).
           ++ by rewrite results_filled.
           ++ by rewrite length_insert.
           ++ intros j Hj. destruct (decide (j = i)) as [->|Hji].
              ** by rewrite list_lookup_insert_eq by lia.
              ** rewrite list_lookup_insert_ne by done. rewrite Hc by done.
                 by rewrite decide_True by lia.
        -- by rewrite bool_decide_eq_false_2 by done.
    + replace (S i) with (i + 1)%nat by lia.
      rewrite <- drop_drop, Hdrop. done.
Qed.

Lemma deliver_idle (st : loop json) order :
  waiting st = ∅ → foldl (deliver net) st order = st.
Proof.
  intros Hw. induction order as [|i order IH]; simpl; [done|].
  unfold deliver at 2. rewrite Hw, lookup_empty. done.
Qed.

(** The batch on the requests client. *)
Lemma gather_sync order :
  sync_inv net ops n (run_batch false net order ops).
Proof.
  unfold run_batch, gather. rewrite length_fmap.
  assert (sync_inv net ops n (start net 0 (SessionClient false <$> ops) (spawn n))) as Hs.
  { apply started_sync; [|done]. unfold sync_inv, spawn. simpl. repeat split.
    - lia.
    - apply length_replicate.
    - intros j Hj. by rewrite lookup_replicate_2.
    - destruct (decide (0 = n)%nat) as [H0|H0].
      + rewrite bool_decide_eq_true_2 by done. by rewrite <- H0.
      + by rewrite bool_decide_eq_false_2 by done. }
  rewrite deliver_idle; [done|]. by destruct Hs as (_ & Hw & _).
Qed.

End Batch.

Lemma gather_outer b net order ops :
  order ≡ₚ seq 0 (length ops) →
  outer (run_batch b net order ops)
  = Some (inr (slot b net ops <$> seq 0 (length ops))).
Proof.
  intros Hperm. destruct b.
  - destruct (gather_async net ops order Hperm) as (_ & _ & _ & _ & _ & _ & Ho).
    rewrite Ho. rewrite decide_True; [done|].
    rewrite Hperm. apply length_seq.
  - destruct (gather_sync net ops order) as (_ & _ & _ & _ & _ & _ & _ & Ho).
    rewrite Ho. by rewrite decide_True.
Qed.

Lemma gather_printed b net order ops i :
  order ≡ₚ seq 0 (length ops) → (i < length ops)%nat →
  ∀ line, line ∈ says b net ops i → line ∈ printed (run_batch b net order ops).
Proof.
  intros Hperm Hi line Hline.
  assert (i ∈ seq 0 (length ops)) as Hseq by (apply elem_of_seq; lia).
  destruct b.
  - destruct (gather_async net ops order Hperm) as (_ & _ & _ & _ & _ & Hp & _).
    rewrite Hp. apply list_elem_of_bind. exists i. split; [done|].
    by rewrite Hperm.
  - destruct (gather_sync net ops order) as (_ & _ & _ & _ & _ & _ & Hp & _).
    rewrite Hp. apply list_elem_of_bind. by exists i.
Qed.

Lemma slots_lookup b net ops i o :
  ops !! i = Some o →
  (slot b net ops <$> seq 0 (length ops)) !! i
  = Some (from_attempt (op_attempt b o (net i (op_request o)))).
Proof.
  intros Hop. rewrite list_lookup_fmap, lookup_seq_lt by (by eapply lookup_lt_Some).
  simpl. unfold slot. by rewrite Hop.
Qed.

(** * Claims about batches *)

(** C3. Whatever the order in which the exchanges of a batch complete,
    [asyncio.gather] returns one result per operation, in submission
    order: slot [i] holds what operation [i] returns when it is run on its
    own against the answer the network gave to it. *)
Theorem gather_keeps_submission_order
    (USE_ASYNC : bool) (net : network) (order : list nat) (ops : list op) :
  order ≡ₚ seq 0 (length ops) →
  ∃ out,
    outer (run_batch USE_ASYNC net order ops) = Some (inr out)
    ∧ length out = length ops
    ∧ ∀ i o, ops !! i = Some o →
             inr <$> out !! i = Some (alone USE_ASYNC o (net i (op_request o))).
Proof.
  intros Hperm. exists (slot USE_ASYNC net ops <$> seq 0 (length ops)).
  split; [by apply gather_outer|]. split.
  - by rewrite length_fmap, length_seq.
  - intros i o Hop. rewrite (slots_lookup _ _ _ _ _ Hop). simpl.
    by rewrite alone_eq.
Qed.

Lemma gather_keeps_submission_order_witness :
  ∃ out,
    outer (run_batch true (except_task_1 (Failed (TimedOut "slow"))) [2; 0; 1]
             three_creations) = Some (inr out)
    ∧ length out = 3
    ∧ out !! 1 = Some JNull.
Proof.
  assert ([2; 0; 1] ≡ₚ seq 0 (length three_creations)) as Hperm.
  { simpl. apply (bool_decide_unpack _). reflexivity. }
  destruct (gather_keeps_submission_order true
              (except_task_1 (Failed (TimedOut "slow"))) [2; 0; 1]
              three_creations Hperm) as (out & Hout & Hlen & Hslots).
  exists out. split; [done|]. split; [done|].
  specialize (Hslots 1 (CreateSession "Bob" None None) eq_refl).
  destruct (out !! 1) as [v|]; [|discriminate Hslots].
  simpl in Hslots. injection Hslots as ->. reflexivity.
Defined.

(** C4 (as stated, refuted).  A slot does not hold the error its operation
    failed with: an operation that times out and one that is answered 500
    both leave [None] in their slot, so no reading of the slots recovers
    the outcomes. *)
Lemma failed_slot_forgets_error :
  ¬ slots_hold_outcomes true three_creations.
Proof.
  intros (read & Hread).
  assert ([0; 1; 2] ≡ₚ seq 0 (length three_creations)) as Hperm by done.
  pose proof (Hread (except_task_1 (Failed (TimedOut "slow"))) [0; 1; 2]
                [JStr "s-1"; JNull; JStr "s-1"] Hperm eq_refl
                1 (CreateSession "Bob" None None) eq_refl) as H1.
  pose proof (Hread (except_task_1 (Responded (Response 500 "boom" None))) [0; 1; 2]
                [JStr "s-1"; JNull; JStr "s-1"] Hperm eq_refl
                1 (CreateSession "Bob" None None) eq_refl) as H2.
  vm_compute in H1, H2. congruence.
Qed.

(** C4 (amended).  A batch always runs to completion, one slot per
    operation, whatever happens to the others: the slot of an operation
    whose [try] block succeeds holds its return value; the slot of an
    operation that fails holds [None], and the error is printed, not
    stored. *)
Theorem gather_reports_every_slot
    (USE_ASYNC : bool) (net : network) (order : list nat) (ops : list op) :
  order ≡ₚ seq 0 (length ops) →
  ∃ out,
    outer (run_batch USE_ASYNC net order ops) = Some (inr out)
    ∧ length out = length ops
    ∧ ∀ i o, ops !! i = Some o →
        match op_attempt USE_ASYNC o (net i (op_request o)) with
        | inr v => out !! i = Some v
        | inl e =>
            out !! i = Some JNull
            ∧ (op_label o ++ str_exn e) ∈ printed (run_batch USE_ASYNC net order ops)
        end.
Proof.
  intros Hperm. exists (slot USE_ASYNC net ops <$> seq 0 (length ops)).
  split; [by apply gather_outer|]. split.
  - by rewrite length_fmap, length_seq.
  - intros i o Hop. rewrite (slots_lookup _ _ _ _ _ Hop).
    destruct (op_attempt USE_ASYNC o (net i (op_request o))) as [e|v] eqn:E;
      simpl; [|done].
    split; [done|].
    apply (gather_printed _ _ _ _ i); [done|by eapply lookup_lt_Some|].
    unfold says. rewrite Hop, E. simpl. set_solver.
Qed.

Lemma gather_reports_every_slot_witness :
  ∃ out,
    outer (run_batch true (except_task_1 (Responded (Response 500 "boom" None)))
             [2; 0; 1] three_creations) = Some (inr out)
    ∧ out !! 0 = Some (JStr "s-1")
    ∧ out !! 1 = Some JNull
    ∧ out !! 2 = Some (JStr "s-1").
Proof.
  assert ([2; 0; 1] ≡ₚ seq 0 (length three_creations)) as Hperm.
  { simpl. apply (bool_decide_unpack _). reflexivity. }
  destruct (gather_reports_every_slot true
              (except_task_1 (Responded (Response 500 "boom" None))) [2; 0; 1]
              three_creations Hperm) as (out & Hout & Hlen & Hslots).
  exists out. split; [done|].
  pose proof (Hslots 0 (CreateSession "Alice" None None) eq_refl) as H0.
  pose proof (Hslots 1 (CreateSession "Bob" None None) eq_refl) as H1.
  pose proof (Hslots 2 (CreateSession "Carol" None None) eq_refl) as H2.
  vm_compute in H0, H1, H2. destruct H1 as [H1 _]. done.
Defined.

Lemma gather_trace_async net order ops :
  order ≡ₚ seq 0 (length ops) →
  trace (run_batch true net order ops)
  = ((Begin <$> seq 0 (length ops)) ++ (End <$> order))%list.
Proof.
  intros Hperm.
  by destruct (gather_async net ops order Hperm) as (_ & _ & _ & _ & Ht & _).
Qed.

Lemma gather_trace_sync net order ops :
  trace (run_batch false net order ops)
  = seq 0 (length ops) ≫= (λ j, [Begin j; End j]).
Proof.
  by destruct (gather_sync net ops order) as (_ & _ & _ & _ & _ & Ht & _).
Qed.

Lemma turns_length n :
  length (seq 0 n ≫= (λ j, [Begin j; End j])) = (n + n)%nat.
Proof.
  induction n as [|n IH]; [done|].
  rewrite seq_S, bind_app, length_app, IH. simpl. lia.
Qed.

Lemma turns_lookup n j :
  (j < n)%nat →
  (seq 0 n ≫= (λ j, [Begin j; End j])) !! (j + j)%nat = Some (Begin j)
  ∧ (seq 0 n ≫= (λ j, [Begin j; End j])) !! (S (j + j))%nat = Some (End j).
Proof.
  induction n as [|n IH]; intros Hj; [lia|].
  rewrite seq_S, bind_app. simpl.
  destruct (decide (j = n)) as [->|Hne].
  - rewrite !lookup_app_r by (rewrite turns_length; lia).
    rewrite turns_length.
    replace (n + n - (n + n))%nat with 0%nat by lia.
    replace (S (n + n) - (n + n))%nat with 1%nat by lia. done.
  - destruct IH as [Hb He]; [lia|].
    rewrite !lookup_app_l by (rewrite turns_length; lia). done.
Qed.

Lemma begins_lookup n (order : list nat) j :
  (j < n)%nat →
  ((Begin <$> seq 0 n) ++ (End <$> order))%list !! j = Some (Begin j).
Proof.
  intros Hj. rewrite lookup_app_l by (rewrite length_fmap, length_seq; lia).
  by rewrite list_lookup_fmap, lookup_seq_lt.
Qed.

Lemma ends_lookup n (order : list nat) p i :
  order !! p = Some i →
  ((Begin <$> seq 0 n) ++ (End <$> order))%list !! (n + p)%nat = Some (End i).
Proof.
  intros Hp. rewrite lookup_app_r by (rewrite length_fmap, length_seq; lia).
  rewrite length_fmap, length_seq.
  replace (n + p - n)%nat with p by lia.
  by rewrite list_lookup_fmap, Hp.
Qed.

(** C1 (as stated, refuted).  In demo 4 the first two messages go to
    Alice's session, and on the aiohttp client the second request is
    issued while the first exchange is still open. *)
Lemma same_session_calls_overlap :
  ¬ serial_per_session demo_4_batch
      (trace (run_batch true obliging (seq 0 9) demo_4_batch)).
Proof.
  intros Hserial.
  specialize (Hserial 0 1 (SendMessage "s-alice" "Hi! I'm a software engineer.")
                (SendMessage "s-alice" "I love Python programming.") "s-alice"
                eq_refl eq_refl ltac:(lia) eq_refl eq_refl).
  apply precedes_iff in Hserial. vm_compute in Hserial. discriminate Hserial.
Qed.

(** C1 (amended).  A batch handed to [asyncio.gather] (of at most 100
    operations, the connection pool of aiohttp) issues its requests in
    submission order, but does not wait for one exchange before the next:
    on the aiohttp client every later operation begins while every earlier
    one is still in flight, whether or not the two address the same
    session.  Only on the blocking fallback client is each exchange over
    before the next operation begins. *)
Theorem gather_begins_in_order
    (net : network) (order : list nat) (ops : list op) :
  order ≡ₚ seq 0 (length ops) →
  (length ops ≤ connector_limit)%nat →
  (∀ i j, (i < j < length ops)%nat →
     precedes (Begin i) (Begin j) (trace (run_batch true net order ops))
     ∧ precedes (Begin j) (End i) (trace (run_batch true net order ops)))
  ∧ (∀ i j, (i < j < length ops)%nat →
     precedes (End i) (Begin j) (trace (run_batch false net order ops))).
Proof.
  intros Hperm _. split.
  - intros i j Hij. rewrite gather_trace_async by done. split.
    + exists i, j. rewrite !begins_lookup by lia. split; [done|]. split; [done|lia].
    + assert (i ∈ order) as Hin.
      { rewrite Hperm. apply elem_of_seq. lia. }
      apply list_elem_of_lookup_1 in Hin as [p Hp].
      exists j, (length ops + p)%nat.
      rewrite begins_lookup by lia. rewrite (ends_lookup _ _ _ _ Hp).
      split; [done|]. split; [done|lia].
  - intros i j Hij. rewrite gather_trace_sync.
    destruct (turns_lookup (length ops) i) as [_ He]; [lia|].
    destruct (turns_lookup (length ops) j) as [Hb _]; [lia|].
    exists (S (i + i))%nat, (j + j)%nat. split; [done|]. split; [done|lia].
Qed.

Lemma gather_begins_in_order_witness :
  precedes (Begin 0) (Begin 1)
    (trace (run_batch true obliging [2; 0; 1] three_creations))
  ∧ precedes (Begin 1) (End 0)
      (trace (run_batch true obliging [2; 0; 1] three_creations)).
Proof.
  assert ([2; 0; 1] ≡ₚ seq 0 (length three_creations)) as Hperm.
  { simpl. apply (bool_decide_unpack _). reflexivity. }
  assert (length three_creations ≤ connector_limit)%nat as Hfit.
  { unfold connector_limit. simpl. lia. }
  apply (proj1 (gather_begins_in_order obliging [2; 0; 1] three_creations
                  Hperm Hfit)).
  simpl. lia.
Defined.

(** C2 (as stated, refuted).  The ten creations of demo 1 are all in
    flight at once on the aiohttp client: no ceiling below ten bounds the
    batch. *)
Lemma ten_creations_in_flight :
  ¬ ∃ C, (C < 10)%nat
         ∧ bounded C (trace (run_batch true obliging (seq 0 10) demo_1_tasks)).
Proof.
  intros (C & HC & Hbound). specialize (Hbound 10).
  assert (in_flight (take 10 (trace (run_batch true obliging (seq 0 10) demo_1_tasks)))
          = 10) as Hten by (vm_compute; reflexivity).
  rewrite Hten in Hbound. lia.
Qed.

(** C2 (amended).  [asyncio.gather] applies no concurrency ceiling: on the
    aiohttp client the [N] operations of a batch (of at most 100
    operations, the connection pool of aiohttp) are started one after the
    other in submission order with none held back, so that [N] exchanges
    are in flight together; the number in flight never exceeds [N]. *)
Theorem gather_has_no_ceiling
    (net : network) (order : list nat) (ops : list op) :
  order ≡ₚ seq 0 (length ops) →
  (length ops ≤ connector_limit)%nat →
  take (length ops) (trace (run_batch true net order ops))
    = Begin <$> seq 0 (length ops)
  ∧ in_flight (take (length ops) (trace (run_batch true net order ops)))
    = length ops
  ∧ bounded (length ops) (trace (run_batch true net order ops)).
Proof.
  intros Hperm _. rewrite gather_trace_async by done. repeat split.
  - rewrite take_app_length'; [done|]. by rewrite length_fmap, length_seq.
  - rewrite in_flight_spread. lia.
  - intros k. rewrite in_flight_spread. lia.
Qed.

Lemma gather_has_no_ceiling_witness :
  in_flight (take 3 (trace (run_batch true obliging [2; 0; 1] three_creations))) = 3.
Proof.
  assert ([2; 0; 1] ≡ₚ seq 0 (length three_creations)) as Hperm.
  { simpl. apply (bool_decide_unpack _). reflexivity. }
  assert (length three_creations ≤ connector_limit)%nat as Hfit.
  { unfold connector_limit. simpl. lia. }
  apply (proj1 (proj2 (gather_has_no_ceiling obliging [2; 0; 1] three_creations
                         Hperm Hfit))).
Defined.

(** * Further properties of [SessionManager] *)

Lemma rstrip_slash_cons c s :
  rstrip_slash (String c s)
  = match rstrip_slash s with
    | EmptyString => if String.eqb (String c EmptyString) "/" then "" else String c ""
    | r => String c r
    end.
Proof. done. Qed.

Lemma rstrip_slash_split url :
  ∃ k, url = rstrip_slash url ++ slashes k ∧ ¬ ends_with_slash (rstrip_slash url).
Proof.
  induction url as [|c s (k & Hs & Hno)].
  - exists 0. split; [done|]. intros [[|??] [=]].
  - rewrite rstrip_slash_cons. destruct (rstrip_slash s) as [|a r] eqn:Er.
    + simpl in Hs. destruct (String.eqb_spec (String c "") "/") as [[= ->]|Hc].
      * exists (S k). split; [by rewrite Hs|]. intros [[|??] [=]].
      * exists k. split; [by rewrite Hs at 1|].
        intros [[|? t] Ht]; simpl in Ht.
        -- apply Hc. by injection Ht as ->.
        -- injection Ht as _ Ht. by destruct t.
    + exists k. split; [by rewrite Hs at 1|].
      intros [[|? t] Ht]; simpl in Ht; [done|].
      injection Ht as _ Ht. apply Hno. by exists t.
Qed.

Lemma rstrip_slash_slashes k : rstrip_slash (slashes k) = "".
Proof.
  induction k as [|k IH]; [done|].
  change (slashes (S k)) with ("/" ++ slashes k).
  change ("/" ++ slashes k) with (String (Ascii.ascii_of_nat 47) (slashes k)).
  by rewrite rstrip_slash_cons, IH.
Qed.

Lemma rstrip_slash_app url k :
  rstrip_slash (url ++ slashes k) = rstrip_slash url.
Proof.
  induction url as [|c s IH]; [apply rstrip_slash_slashes|].
  change (String c s ++ slashes k) with (String c (s ++ slashes k)).
  by rewrite !rstrip_slash_cons, IH.
Qed.

(** X1. The constructor stores the base URL without its trailing
    slashes, and without anything else removed: the URL given is the
    stored one followed by slashes only, and the stored one does not end
    in a slash.  The chat URL therefore does not depend on trailing
    slashes of the URL given. *)
Theorem init_strips_trailing_slashes (url : string) (seconds : Z) (session_id : string) :
  (∃ k, url = SessionManager.base_url (SessionManager.init url seconds) ++ slashes k)
  ∧ ¬ ends_with_slash (SessionManager.base_url (SessionManager.init url seconds))
  ∧ ∀ k, SessionManager.get_chat_url (SessionManager.init (url ++ slashes k) seconds)
           session_id
         = SessionManager.get_chat_url (SessionManager.init url seconds) session_id.
Proof.
  destruct (rstrip_slash_split url) as (k & Hk & Hno). split; [by exists k|].
  split; [done|]. intros k'. unfold SessionManager.get_chat_url. simpl.
  by rewrite rstrip_slash_app.
Qed.

Lemma try_except_raises {A} net (c : coro A) (h : exn → exn) w e :
  outcome net (try_except c (λ e, Raise (h e))) w = inl e → ∃ e', e = h e'.
Proof.
  unfold outcome. revert w.
  induction c as [a|e0|l c IH|r k IH|r k IH]; intros w; simpl.
  - done.
  - intros [= <-]. by exists e0.
  - apply IH.
  - apply IH.
  - apply IH.
Qed.

Lemma create_session_outcome net self agent_id user_name user_email
    user_preferences kwargs w :
  SessionManager.clash kwargs = None →
  outcome net (SessionManager.create_session self agent_id user_name user_email
                 user_preferences kwargs) w
  = match net (sent w)
            (SessionManager.create_session_request self agent_id
               (kwargs ∪ base_state user_name user_email user_preferences)) with
    | Failed f => inl (SessionManager.create_session_except self (failure_exn f))
    | Responded resp =>
        match raise_for_status resp with
        | inl e => inl (SessionManager.create_session_except self e)
        | inr _ =>
            match response_json resp with
            | inl e => inl (SessionManager.create_session_except self e)
            | inr data =>
                match py_getitem data "session_id" with
                | inl e => inl (SessionManager.create_session_except self e)
                | inr v => inr v
                end
            end
        end
    end.
Proof.
  intros Hc. unfold SessionManager.create_session. rewrite Hc.
  unfold outcome. simpl.
  destruct (net _ _) as [resp|f]; simpl; [|done].
  destruct (raise_for_status resp); simpl; [done|].
  destruct (response_json resp) as [e|data]; simpl; [done|].
  by destruct (py_getitem data "session_id").
Qed.

Lemma get_session_outcome net self session_id w :
  outcome net (SessionManager.get_session self session_id) w
  = match net (sent w) (SessionManager.session_request GET self session_id) with
    | Failed f =>
        inl (SessionManager.by_id_except "get session" self session_id (failure_exn f))
    | Responded resp =>
        match raise_for_status resp with
        | inl e => inl (SessionManager.by_id_except "get session" self session_id e)
        | inr _ =>
            match response_json resp with
            | inl e => inl (SessionManager.by_id_except "get session" self session_id e)
            | inr data => inr data
            end
        end
    end.
Proof.
  unfold outcome. simpl.
  destruct (net _ _) as [resp|f]; simpl; [|done].
  destruct (raise_for_status resp); simpl; [done|].
  by destruct (response_json resp).
Qed.

Lemma delete_session_outcome net self session_id w :
  outcome net (SessionManager.delete_session self session_id) w
  = match net (sent w) (SessionManager.session_request DELETE self session_id) with
    | Failed f =>
        inl (SessionManager.by_id_except "delete session" self session_id (failure_exn f))
    | Responded resp =>
        match raise_for_status resp with
        | inl e => inl (SessionManager.by_id_except "delete session" self session_id e)
        | inr _ => inr true
        end
    end.
Proof.
  unfold outcome. simpl.
  destruct (net _ _) as [resp|f]; simpl; [|done].
  by destruct (raise_for_status resp).
Qed.


Lemma client_error_create self e :
  client_error (SessionManager.create_session_except self e).
Proof. by destruct e. Qed.

Lemma client_error_send self session_id e :
  client_error (SessionManager.send_message_except self session_id e).
Proof. destruct e; simpl; try done. by case_bool_decide. Qed.

Lemma client_error_list self e :
  client_error (SessionManager.list_sessions_except self e).
Proof. by destruct e. Qed.

Lemma client_error_by_id action self session_id e :
  client_error (SessionManager.by_id_except action self session_id e).
Proof. destruct e; simpl; try done. by case_bool_decide. Qed.

(** X3. Whatever the network and the remote do, a [SessionManager] method
    that fails raises [ConnectionError], [TimeoutError] or [ValueError]:
    no exception of the HTTP library and no [KeyError], [TypeError] or
    [AttributeError] from taking the reply apart escapes. *)
Theorem manager_raises_client_errors
    (self : SessionManager.t) (net : remote) (w : world)
    (agent_id user_name session_id message : string)
    (user_email user_preferences filter : option string)
    (kwargs : gmap string json) :
  SessionManager.clash kwargs = None →
  (∀ e, outcome net (SessionManager.create_session self agent_id user_name
                       user_email user_preferences kwargs) w = inl e →
        client_error e)
  ∧ (∀ e, outcome net (SessionManager.send_message self session_id message) w = inl e →
          client_error e)
  ∧ (∀ e, outcome net (SessionManager.list_sessions self filter) w = inl e →
          client_error e)
  ∧ (∀ e, outcome net (SessionManager.get_session self session_id) w = inl e →
          client_error e)
  ∧ (∀ e, outcome net (SessionManager.delete_session self session_id) w = inl e →
          client_error e).
Proof.
  intros Hc. repeat split; intros e He.
  - unfold SessionManager.create_session in He. rewrite Hc in He.
    apply try_except_raises in He as [e' ->]. apply client_error_create.
  - apply try_except_raises in He as [e' ->]. apply client_error_send.
  - apply try_except_raises in He as [e' ->]. apply client_error_list.
  - apply try_except_raises in He as [e' ->]. apply client_error_by_id.
  - apply try_except_raises in He as [e' ->]. apply client_error_by_id.
Qed.

Lemma manager_raises_client_errors_witness :
  client_error (ValueError "Unexpected error: 'session_id'").
Proof.
  assert (SessionManager.clash ∅ = None) as Hclash by reflexivity.
  refine (proj1 (manager_raises_client_errors SessionManager.default
                   (always (Responded (Response 200 "{}" (Some (JObj ∅))))) fresh
                   AGENT_ID "Alice" "s-1" "Hi!" None None None ∅ Hclash) _ _).
  reflexivity.
Defined.

(** X4. A refused connection surfaces as [ConnectionError] naming the base
    URL in all five methods.  A timeout surfaces as [TimeoutError] naming
    the configured timeout in [create_session], [send_message] and
    [list_sessions], but in [get_session] and [delete_session], which have
    no clause for it, as [ValueError("Unexpected error: ...")]. *)
Theorem manager_network_failures
    (self : SessionManager.t) (w : world) (msg : string)
    (agent_id user_name session_id message : string)
    (user_email user_preferences filter : option string) :
  (outcome (always (Failed (Refused msg)))
     (SessionManager.create_session self agent_id user_name user_email
        user_preferences ∅) w = inl (SessionManager.cannot_connect self)
   ∧ outcome (always (Failed (Refused msg)))
       (SessionManager.send_message self session_id message) w
     = inl (SessionManager.cannot_connect self)
   ∧ outcome (always (Failed (Refused msg)))
       (SessionManager.list_sessions self filter) w
     = inl (SessionManager.cannot_connect self)
   ∧ outcome (always (Failed (Refused msg)))
       (SessionManager.get_session self session_id) w
     = inl (SessionManager.cannot_connect self)
   ∧ outcome (always (Failed (Refused msg)))
       (SessionManager.delete_session self session_id) w
     = inl (SessionManager.cannot_connect self))
  ∧ (outcome (always (Failed (TimedOut msg)))
       (SessionManager.create_session self agent_id user_name user_email
          user_preferences ∅) w = inl (SessionManager.timed_out self)
     ∧ outcome (always (Failed (TimedOut msg)))
         (SessionManager.send_message self session_id message) w
       = inl (SessionManager.timed_out self)
     ∧ outcome (always (Failed (TimedOut msg)))
         (SessionManager.list_sessions self filter) w
       = inl (SessionManager.timed_out self)
     ∧ outcome (always (Failed (TimedOut msg)))
         (SessionManager.get_session self session_id) w
       = inl (ValueError ("Unexpected error: " ++ msg))
     ∧ outcome (always (Failed (TimedOut msg)))
         (SessionManager.delete_session self session_id) w
       = inl (ValueError ("Unexpected error: " ++ msg))).
Proof.
  rewrite !create_session_outcome by done.
  rewrite !send_message_outcome, !list_sessions_outcome,
    !get_session_outcome, !delete_session_outcome.
  done.
Qed.

(** X5. The fallback of [send_message] goes by presence, not by truth
    value: when the reply has neither [response] nor [text] the call
    returns the empty string, and a [response] entry that is present but
    null is returned as [None] even if [text] is there. *)
Theorem send_message_absent_fields
    (self : SessionManager.t) (w : world) (session_id message : string)
    (resp : response) (d : gmap string json) :
  ¬ (400 ≤ status_code resp < 600)%Z →
  json_body resp = Some (JObj d) →
  (d !! "response" = None → d !! "text" = None →
     outcome (always (Responded resp))
       (SessionManager.send_message self session_id message) w = inr (JStr ""))
  ∧ (d !! "response" = Some JNull →
     outcome (always (Responded resp))
       (SessionManager.send_message self session_id message) w = inr JNull).
Proof.
  intros Hst Hbody. rewrite send_message_outcome. unfold always.
  rewrite raise_for_status_ok by done. unfold response_json. rewrite Hbody.
  rewrite reply_text_object. split.
  - by intros -> ->.
  - by intros ->.
Qed.

Lemma send_message_absent_fields_witness :
  outcome (always (Responded (Response 200 "{}" (Some (JObj ∅)))))
    (SessionManager.send_message SessionManager.default "s-1" "Hi!") fresh
  = inr (JStr "").
Proof.
  refine (proj1 (send_message_absent_fields SessionManager.default fresh "s-1" "Hi!"
                   (Response 200 "{}" (Some (JObj ∅))) ∅ _ _) _ _);
    try reflexivity.
  simpl. lia.
Defined.

Lemma py_get_not_object data key dflt :
  (∀ d, data ≠ JObj d) → ∃ m, py_get data key dflt = inl (AttributeError m).
Proof. intros Hd. destruct data; simpl; eauto. by destruct (Hd d). Qed.

Lemma py_getitem_not_object data key :
  (∀ d, data ≠ JObj d) → ∃ m, py_getitem data key = inl (TypeError m).
Proof. intros Hd. destruct data; simpl; eauto. by destruct (Hd d). Qed.

(** X6. A reply that is not an HTTP error but whose body is not a JSON
    object (not JSON at all, or a list, a string, a number, null) makes
    [create_session], [send_message] and [list_sessions] raise
    [ValueError("Unexpected error: ...")].  [get_session] returns whatever
    JSON value the body holds, and [delete_session] does not read the
    body. *)
Theorem manager_unexpected_body
    (self : SessionManager.t) (w : world) (resp : response)
    (agent_id user_name session_id message : string)
    (user_email user_preferences filter : option string) :
  ¬ (400 ≤ status_code resp < 600)%Z →
  not_an_object (json_body resp) →
  (∃ e, outcome (always (Responded resp))
          (SessionManager.create_session self agent_id user_name user_email
             user_preferences ∅) w = inl (SessionManager.unexpected e))
  ∧ (∃ e, outcome (always (Responded resp))
            (SessionManager.send_message self session_id message) w
          = inl (SessionManager.unexpected e))
  ∧ (∃ e, outcome (always (Responded resp))
            (SessionManager.list_sessions self filter) w
          = inl (SessionManager.unexpected e))
  ∧ (∀ j, json_body resp = Some j →
          outcome (always (Responded resp))
            (SessionManager.get_session self session_id) w = inr j)
  ∧ outcome (always (Responded resp))
      (SessionManager.delete_session self session_id) w = inr true.
Proof.
  intros Hst Hbody.
  rewrite create_session_outcome by done.
  rewrite send_message_outcome, list_sessions_outcome, get_session_outcome,
    delete_session_outcome.
  unfold always. rewrite raise_for_status_ok by done. unfold response_json.
  destruct (json_body resp) as [data|] eqn:Eb.
  - assert (∀ d, data ≠ JObj d) as Hd by (intros d ->; by apply (Hbody d)).
    split; [|split; [|split; [|split]]].
    + destruct (py_getitem_not_object data "session_id" Hd) as [m ->].
      by eexists.
    + unfold reply_text.
      destruct (py_get_not_object data "text" (JStr "") Hd) as [m ->].
      by eexists.
    + destruct (py_get_not_object data "sessions" (JArr []) Hd) as [m ->].
      by eexists.
    + by intros j [= ->].
    + done.
  - split; [|split; [|split; [|split]]]; try by eexists.
    done.
Qed.

Lemma manager_unexpected_body_witness :
  ∃ e, outcome (always (Responded (Response 200 "[]" (Some (JArr [])))))
         (SessionManager.send_message SessionManager.default "s-1" "Hi!") fresh
       = inl (SessionManager.unexpected e).
Proof.
  refine (proj1 (proj2 (manager_unexpected_body SessionManager.default fresh
                          (Response 200 "[]" (Some (JArr []))) AGENT_ID "Alice"
                          "s-1" "Hi!" None None None _ _))).
  - simpl. lia.
  - intros d. discriminate.
Defined.

(** X7. On a reply that is not an HTTP error and whose body is an object,
    [create_session] returns the [session_id] entry as it is; when the
    entry is missing it raises [ValueError("Unexpected error:
    'session_id'")]. *)
Theorem create_session_returns_id
    (self : SessionManager.t) (w : world) (resp : response) (d : gmap string json)
    (agent_id user_name : string) (user_email user_preferences : option string)
    (kwargs : gmap string json) :
  SessionManager.clash kwargs = None →
  ¬ (400 ≤ status_code resp < 600)%Z →
  json_body resp = Some (JObj d) →
  outcome (always (Responded resp))
    (SessionManager.create_session self agent_id user_name user_email
       user_preferences kwargs) w
  = match d !! "session_id" with
    | Some v => inr v
    | None => inl (ValueError "Unexpected error: 'session_id'")
    end.
Proof.
  intros Hc Hst Hbody. rewrite create_session_outcome by done. unfold always.
  rewrite raise_for_status_ok by done. unfold response_json. rewrite Hbody.
  simpl. by destruct (d !! "session_id").
Qed.

Lemma create_session_returns_id_witness :
  outcome (always (Responded (Response 201 "" (Some (JObj {[ "session_id" := JStr "s-7" ]})))))
    (SessionManager.create_session SessionManager.default AGENT_ID "Alice" None None ∅)
    fresh
  = inr (JStr "s-7").
Proof.
  assert (SessionManager.clash ∅ = None) as Hclash by reflexivity.
  refine (create_session_returns_id SessionManager.default fresh
            (Response 201 "" (Some (JObj {[ "session_id" := JStr "s-7" ]})))
            {[ "session_id" := JStr "s-7" ]} AGENT_ID "Alice" None None ∅
            Hclash _ _).
  - simpl. lia.
  - reflexivity.
Defined.

(** X8. A 404 reply is told apart only where a session is addressed:
    [send_message], [get_session] and [delete_session] raise
    [ValueError("Session not found: <id>")]; [create_session] reports it
    like any other HTTP error, and [list_sessions], which has no clause
    for HTTP errors, as an unexpected error. *)
Theorem manager_not_found
    (self : SessionManager.t) (w : world) (body : string) (j : option json)
    (agent_id user_name session_id message : string)
    (user_email user_preferences filter : option string) :
  outcome (always (Responded (Response 404 body j)))
    (SessionManager.send_message self session_id message) w
    = inl (ValueError ("Session not found: " ++ session_id))
  ∧ outcome (always (Responded (Response 404 body j)))
      (SessionManager.get_session self session_id) w
    = inl (ValueError ("Session not found: " ++ session_id))
  ∧ outcome (always (Responded (Response 404 body j)))
      (SessionManager.delete_session self session_id) w
    = inl (ValueError ("Session not found: " ++ session_id))
  ∧ outcome (always (Responded (Response 404 body j)))
      (SessionManager.create_session self agent_id user_name user_email
         user_preferences ∅) w
    = inl (ValueError ("Failed to create session: 404 - " ++ body))
  ∧ outcome (always (Responded (Response 404 body j)))
      (SessionManager.list_sessions self filter) w
    = inl (SessionManager.unexpected (ReqHTTPError 404 body)).
Proof.
  rewrite create_session_outcome by done.
  rewrite send_message_outcome, list_sessions_outcome, get_session_outcome,
    delete_session_outcome.
  done.
Qed.

(** X9. [get_session] and [delete_session] report every other status from
    400 to 599 as [ValueError("Failed to get session: <status> - <body>")],
    respectively ["Failed to delete session: ..."]; on any status outside
    that range [delete_session] returns [True]. *)
Theorem by_id_http_errors
    (self : SessionManager.t) (w : world) (resp : response) (session_id : string) :
  ((400 ≤ status_code resp < 600)%Z → status_code resp ≠ 404%Z →
     outcome (always (Responded resp)) (SessionManager.get_session self session_id) w
     = inl (SessionManager.request_failed "get session" (status_code resp) (text resp))
     ∧ outcome (always (Responded resp))
         (SessionManager.delete_session self session_id) w
       = inl (SessionManager.request_failed "delete session" (status_code resp)
                (text resp)))
  ∧ (¬ (400 ≤ status_code resp < 600)%Z →
     outcome (always (Responded resp))
       (SessionManager.delete_session self session_id) w = inr true).
Proof.
  rewrite get_session_outcome, delete_session_outcome. unfold always. split.
  - intros Hst Hne. rewrite raise_for_status_error by done. simpl.
    by rewrite bool_decide_eq_false_2.
  - intros Hst. by rewrite raise_for_status_ok.
Qed.

Lemma by_id_http_errors_witness :
  outcome (always (Responded (Response 500 "boom" None)))
    (SessionManager.delete_session SessionManager.default "s-1") fresh
  = inl (ValueError "Failed to delete session: 500 - boom").
Proof.
  refine (proj2 (proj1 (by_id_http_errors SessionManager.default fresh
                          (Response 500 "boom" None) "s-1") _ _)).
  - simpl. lia.
  - simpl. lia.
Defined.

Lemma keep_agent_malformed agent_id l :
  ¬ Forall is_object l →
  ∃ m, SessionManager.keep_agent agent_id l = inl (AttributeError m).
Proof.
  induction l as [|s l IH]; intros Hno.
  - destruct Hno. constructor.
  - destruct s; simpl; eauto.
    destruct IH as [m ->]; [|by eauto].
    intros Hl. apply Hno. constructor; [by eexists|done].
Qed.

(** X10. With a non-empty filter a single entry of the remote list that is
    not an object, wherever it stands, makes [list_sessions] fail with
    [ValueError("Unexpected error: ...")]; without a filter the same list
    is returned untouched. *)
Theorem list_sessions_malformed_entry
    (self : SessionManager.t) (w : world) (resp : response)
    (d : gmap string json) (l : list json) (a : string) :
  ¬ (400 ≤ status_code resp < 600)%Z →
  json_body resp = Some (JObj d) →
  d !! "sessions" = Some (JArr l) →
  ¬ Forall is_object l →
  a ≠ "" →
  (∃ e, outcome (always (Responded resp))
          (SessionManager.list_sessions self (Some a)) w
        = inl (SessionManager.unexpected e))
  ∧ outcome (always (Responded resp)) (SessionManager.list_sessions self None) w
    = inr (JArr l).
Proof.
  intros Hst Hbody Hl Hbad Ha.
  rewrite !list_sessions_outcome. unfold always.
  rewrite raise_for_status_ok by done. unfold response_json. rewrite Hbody.
  simpl. rewrite Hl. simpl. split; [|done].
  destruct (String.eqb_spec a ""); [done|]. simpl.
  destruct (keep_agent_malformed a l Hbad) as [m ->].
  by eexists.
Qed.

Lemma list_sessions_malformed_entry_witness :
  ∃ e, outcome
         (always (Responded (Response 200 ""
            (Some (JObj {[ "sessions" := JArr [one_session; JStr "stray"] ]})))))
         (SessionManager.list_sessions SessionManager.default (Some "helper")) fresh
       = inl (SessionManager.unexpected e).
Proof.
  refine (proj1 (list_sessions_malformed_entry SessionManager.default fresh
                   (Response 200 ""
                      (Some (JObj {[ "sessions" := JArr [one_session; JStr "stray"] ]})))
                   {[ "sessions" := JArr [one_session; JStr "stray"] ]}
                   [one_session; JStr "stray"] "helper" _ _ _ _ _)).
  - simpl. lia.
  - reflexivity.
  - reflexivity.
  - intros H. apply Forall_cons in H as [_ H]. apply Forall_cons in H as [[d Hd] _].
    discriminate Hd.
  - discriminate.
Defined.

(** * Further properties of the clients of the demos *)

Lemma SessionClient_run b net o w :
  run net (SessionClient b o) w
  = (inr (from_attempt (op_attempt b o (net (sent w) (op_request o)))),
     World (sent w ++ [op_request o])%list
           (console w ++ complaint (op_label o)
                           (op_attempt b o (net (sent w) (op_request o))))%list).
Proof.
  destruct b; [rewrite SessionClient_async|rewrite SessionClient_sync];
    simpl; unfold resume;
    destruct (op_attempt _ o (net (sent w) (op_request o))); simpl;
    by rewrite ?app_nil_r.
Qed.

(** X11. A call of [AsyncSessionClient] or [SyncSessionClient] never
    raises, whatever the network does: it issues its one request and
    either returns the value of its [try] block, printing nothing, or
    prints one line, the error prefixed by its label, and returns
    [None]. *)
Theorem session_client_never_raises
    (USE_ASYNC : bool) (net : remote) (o : op) (w : world) :
  issued net (SessionClient USE_ASYNC o) w = [op_request o]
  ∧ match op_attempt USE_ASYNC o (net (sent w) (op_request o)) with
    | inr v =>
        outcome net (SessionClient USE_ASYNC o) w = inr v
        ∧ console (run net (SessionClient USE_ASYNC o) w).2 = console w
    | inl e =>
        outcome net (SessionClient USE_ASYNC o) w = inr JNull
        ∧ console (run net (SessionClient USE_ASYNC o) w).2
          = (console w ++ [(op_label o ++ str_exn e)%string])%list
    end.
Proof.
  unfold issued, outcome. rewrite SessionClient_run. simpl.
  split; [by rewrite drop_app_length|].
  destruct (op_attempt _ _ _); simpl; [done|]. by rewrite app_nil_r.
Qed.

(** X12. The two demo clients differ only through their libraries.
    Whenever aiohttp and requests hand back the same status, below 600,
    and the same decoded body, or both fail, an operation returns the
    same value with either client.  Where aiohttp hands back no decoded
    body while the [try] block of the requests client yields a value
    other than [None], the clients differ: the async client returns
    [None], the sync client that value. *)
Theorem clients_agree (o : op) (xa xr : exchange) :
  (decoded_alike xa xr →
   (∀ resp, xr = Responded resp → (status_code resp < 600)%Z) →
   alone true o xa = alone false o xr)
  ∧ (∀ a v, xa = Responded a → json_body a = None →
            op_attempt false o xr = inr v → v ≠ JNull →
            alone true o xa = inr JNull
            ∧ alone false o xr = inr v
            ∧ alone true o xa ≠ alone false o xr).
Proof.
  split.
  - intros Halike Hst. rewrite !alone_eq. f_equal.
    destruct xa as [a|fa], xr as [r|fr]; try done; [|by destruct o].
    destruct Halike as [Hstatus Hbody]. specialize (Hst r eq_refl).
    assert ((∃ ea er, op_check true a = inl ea ∧ op_check false r = inl er)
            ∨ op_check true a = inr tt ∧ op_check false r = inr tt)
      as [(ea & er & Ha & Hr)|[Ha Hr]].
    { unfold op_check, aio_raise_for_status, raise_for_status.
      destruct (decide (400 ≤ status_code r)%Z).
      - left. rewrite !bool_decide_eq_true_2 by lia. eauto.
      - right. by rewrite !bool_decide_eq_false_2 by lia. }
    + destruct o; unfold op_attempt, created_id, chat_reply; by rewrite Ha, Hr.
    + destruct o; unfold op_attempt, created_id, chat_reply, response_json;
        by rewrite Ha, Hr, Hbody.
  - intros a v -> Hbody Hv Hne. rewrite !alone_eq, Hv.
    assert (∃ e, op_attempt true o (Responded a) = inl e) as [e ->].
    { destruct o; unfold op_attempt, created_id, chat_reply, response_json;
        rewrite Hbody; destruct (op_check true a); eauto. }
    simpl. split; [done|]. split; [done|]. congruence.
Qed.

Lemma clients_agree_witness :
  alone true (SendMessage "s-1" "Hi!") (Responded (Response 503 "busy" None))
  = alone false (SendMessage "s-1" "Hi!") (Responded (Response 503 "busy" None))
  ∧ (alone true (CreateSession "Alice" None None)
       (Responded (Response 200 session_text None))
     = inr JNull
     ∧ alone false (CreateSession "Alice" None None)
         (Responded (Response 200 session_text
                       (Some (JObj {[ "session_id" := JStr "s-1" ]}))))
       = inr (JStr "s-1")).
Proof.
  split.
  - apply (proj1 (clients_agree (SendMessage "s-1" "Hi!")
                    (Responded (Response 503 "busy" None))
                    (Responded (Response 503 "busy" None)))).
    + split; reflexivity.
    + intros resp [= <-]. simpl. lia.
  - assert (op_attempt false (CreateSession "Alice" None None)
              (Responded (Response 200 session_text
                            (Some (JObj {[ "session_id" := JStr "s-1" ]}))))
            = inr (JStr "s-1")) as Hv by reflexivity.
    destruct (proj2 (clients_agree (CreateSession "Alice" None None)
                       (Responded (Response 200 session_text None))
                       (Responded (Response 200 session_text
                          (Some (JObj {[ "session_id" := JStr "s-1" ]})))))
                (Response 200 session_text None) (JStr "s-1")
                eq_refl eq_refl Hv ltac:(discriminate)) as (Ha & Hr & _).
    split; [exact Ha|exact Hr].
Defined.

(** X13. The demo clients and [SessionManager] agree.  For the agent of
    the demos and no further state, [SyncSessionClient.create_session]
    posts the payload [SessionManager.create_session] posts, returns what
    the manager returns and returns [None] where the manager raises; the
    same holds for [send_message]. *)
Theorem sync_client_mirrors_manager
    (self : SessionManager.t) (net : remote) (w : world)
    (user_name session_id message : string)
    (user_email user_preferences : option string) :
  (req_json <$> issued net
      (SyncSessionClient.create_session user_name user_email user_preferences) w
   = req_json <$> issued net
       (SessionManager.create_session self AGENT_ID user_name user_email
          user_preferences ∅) w
   ∧ ∀ x, outcome (always x)
            (SyncSessionClient.create_session user_name user_email user_preferences) w
          = match outcome (always x)
                    (SessionManager.create_session self AGENT_ID user_name user_email
                       user_preferences ∅) w with
            | inr v => inr v
            | inl _ => inr JNull
            end)
  ∧ (req_json <$> issued net (SyncSessionClient.send_message session_id message) w
     = req_json <$> issued net
         (SessionManager.send_message self session_id message) w
     ∧ ∀ x, outcome (always x) (SyncSessionClient.send_message session_id message) w
            = match outcome (always x)
                      (SessionManager.send_message self session_id message) w with
              | inr v => inr v
              | inl _ => inr JNull
              end).
Proof.
  change (SyncSessionClient.create_session user_name user_email user_preferences)
    with (SessionClient false (CreateSession user_name user_email user_preferences)).
  change (SyncSessionClient.send_message session_id message)
    with (SessionClient false (SendMessage session_id message)).
  assert (∀ o, issued net (SessionClient false o) w = [op_request o]) as Hsent.
  { intros o. unfold issued. rewrite SessionClient_run. simpl.
    by rewrite drop_app_length. }
  assert (∀ x o, outcome (always x) (SessionClient false o) w
                 = inr (from_attempt (op_attempt false o x))) as Hout.
  { intros x o. unfold outcome. by rewrite SessionClient_run. }
  rewrite create_session_issued, send_message_issued, !Hsent by done.
  split; (split; [simpl; by rewrite ?(left_id_L ∅ (∪))|]); intros x.
  - rewrite Hout, create_session_outcome by done. simpl.
    unfold always, created_id, op_check.
    destruct x as [resp|f]; [|done].
    destruct (raise_for_status resp); [done|].
    destruct (response_json resp) as [e|data]; [done|].
    by destruct (py_getitem data "session_id").
  - rewrite Hout, send_message_outcome. simpl.
    unfold always, chat_reply, op_check.
    destruct x as [resp|f]; [|done].
    destruct (raise_for_status resp); [done|].
    destruct (response_json resp) as [e|data]; [done|].
    by destruct (reply_text data).
Qed.

(** * The session form *)

Lemma submit_outcome net user_id user_name user_email user_preferences
    conversation_context w :
  user_id ≠ "" → user_name ≠ "" →
  outcome net (WebForm.submit user_id user_name user_email user_preferences
                 conversation_context) w
  = inr match net (sent w)
                (create_request (WebForm.form_state user_name user_email
                                   user_preferences conversation_context)) with
        | Failed _ => None
        | Responded resp =>
            if bool_decide (status_code resp = 200%Z) then
              match response_json resp with
              | inl _ => None
              | inr data =>
                  match py_getitem data "session_id" with
                  | inl _ => None
                  | inr session_id =>
                      Some (WebForm.Created session_id user_id user_name
                              (WebForm.form_state user_name user_email
                                 user_preferences conversation_context))
                  end
              end
            else None
        end.
Proof.
  intros Hid Hname. unfold WebForm.submit, nonempty.
  destruct (String.eqb_spec user_id ""); [done|].
  destruct (String.eqb_spec user_name ""); [done|].
  unfold outcome. simpl.
  destruct (net _ _) as [resp|f]; simpl; [|by destruct f].
  case_bool_decide; simpl; [|done].
  destruct (response_json resp) as [e|data]; simpl; [by destruct e|].
  destruct (py_getitem data "session_id") as [e|v]; simpl; [by destruct e|done].
Qed.

Lemma submit_issued net user_id user_name user_email user_preferences
    conversation_context w :
  issued net (WebForm.submit user_id user_name user_email user_preferences
                conversation_context) w
  = if nonempty user_id && nonempty user_name
    then [create_request (WebForm.form_state user_name user_email
                            user_preferences conversation_context)]
    else [].
Proof.
  unfold WebForm.submit.
  destruct (nonempty user_id), (nonempty user_name); simpl;
    try (unfold issued; simpl; by rewrite drop_all).
  apply issued_call. intros [resp|f]; simpl; quiet_solver.
Qed.

(** X14. The form handler never raises, and it sends a request exactly
    when both the user id and the user name are filled in: the one POST of
    the creation payload, whose state has the optional fields that were
    filled in. *)
Theorem submit_sends_iff_filled
    (net : remote) (w : world)
    (user_id user_name user_email user_preferences conversation_context : string) :
  (∃ r, outcome net (WebForm.submit user_id user_name user_email user_preferences
                       conversation_context) w = inr r)
  ∧ issued net (WebForm.submit user_id user_name user_email user_preferences
                  conversation_context) w
    = if nonempty user_id && nonempty user_name
      then [create_request (WebForm.form_state user_name user_email
                              user_preferences conversation_context)]
      else [].
Proof.
  split; [|apply submit_issued].
  destruct (decide (user_id = "")) as [->|Hid].
  { unfold outcome, WebForm.submit. simpl. by eexists. }
  destruct (decide (user_name = "")) as [->|Hname].
  { unfold outcome. rewrite submit_without_name. by eexists. }
  rewrite submit_outcome by done. by eexists.
Qed.

(** X15. The form counts a reply as success only when its status is
    exactly 200: then the session is recorded with the id of the reply and
    the state that was posted.  Any other status, 201 included, records
    nothing. *)
Theorem submit_records_only_on_200
    (w : world) (resp : response) (d : gmap string json) (v : json)
    (user_id user_name user_email user_preferences conversation_context : string) :
  user_id ≠ "" → user_name ≠ "" →
  (status_code resp = 200%Z → json_body resp = Some (JObj d) →
   d !! "session_id" = Some v →
   outcome (always (Responded resp))
     (WebForm.submit user_id user_name user_email user_preferences
        conversation_context) w
   = inr (Some (WebForm.Created v user_id user_name
                  (WebForm.form_state user_name user_email user_preferences
                     conversation_context))))
  ∧ (status_code resp ≠ 200%Z →
     outcome (always (Responded resp))
       (WebForm.submit user_id user_name user_email user_preferences
          conversation_context) w = inr None).
Proof.
  intros Hid Hname. rewrite submit_outcome by done. unfold always. split.
  - intros Hst Hbody Hv. rewrite bool_decide_eq_true_2 by done.
    unfold response_json. rewrite Hbody. simpl. by rewrite Hv.
  - intros Hst. by rewrite bool_decide_eq_false_2.
Qed.

Lemma submit_records_only_on_200_witness :
  outcome (always (Responded (Response 201 "" (Some (JObj {[ "session_id" := JStr "s-7" ]})))))
    (WebForm.submit "alice" "Alice" "" "" "") fresh = inr None.
Proof.
  refine (proj2 (submit_records_only_on_200 fresh
                   (Response 201 "" (Some (JObj {[ "session_id" := JStr "s-7" ]})))
                   ∅ JNull "alice" "Alice" "" "" "" _ _) _); discriminate.
Defined.

(** * The command-line creator *)

Lemma issued_say {A} net l (c : coro A) w :
  issued net (Say l c) w = issued net c (World (sent w) (console w ++ [l])%list).
Proof. done. Qed.

Lemma cli_create_session_outcome net user_id user_name user_email
    user_preferences conversation_context history w :
  outcome net (CLI.create_session user_id user_name user_email user_preferences
                 conversation_context history) w
  = inr match net (sent w)
                (create_request (CLI.state_of user_name user_email user_preferences
                                   conversation_context)) with
        | Failed _ => (JNull, history)
        | Responded resp =>
            if bool_decide (status_code resp = 200%Z) then
              match response_json resp with
              | inl _ => (JNull, history)
              | inr data =>
                  match py_getitem data "session_id" with
                  | inl _ => (JNull, history)
                  | inr session_id =>
                      (session_id,
                       (history ++ [WebForm.Created session_id user_id user_name
                                      (CLI.state_of user_name user_email
                                         user_preferences conversation_context)])%list)
                  end
              end
            else (JNull, history)
        end.
Proof.
  unfold outcome. simpl.
  destruct (net _ _) as [resp|f]; simpl; [|by destruct f].
  case_bool_decide; simpl; [|done].
  destruct (response_json resp) as [e|data]; simpl; [by destruct e|].
  destruct (py_getitem data "session_id") as [e|v]; simpl; [by destruct e|done].
Qed.

Lemma cli_create_session_issued net user_id user_name user_email
    user_preferences conversation_context history w :
  issued net (CLI.create_session user_id user_name user_email user_preferences
                conversation_context history) w
  = [create_request (CLI.state_of user_name user_email user_preferences
                       conversation_context)].
Proof.
  unfold CLI.create_session. cbn [try_except]. rewrite issued_say.
  apply issued_call. intros [resp|f]; simpl; quiet_solver.
Qed.

(** X16. [create_session] of the command line sends its one POST, never
    raises, and touches the session history only on success.  When the
    reply has status exactly 200 and an object body with a [session_id],
    that id is returned and one entry with the id, the user and the
    posted state is appended to the history.  In every other case [None]
    is returned and the history comes back unchanged. *)
Theorem cli_history_append_only
    (net : remote) (w : world) (user_id user_name : string)
    (user_email user_preferences conversation_context : option string)
    (history : list WebForm.created) :
  issued net (CLI.create_session user_id user_name user_email user_preferences
                conversation_context history) w
  = [create_request (CLI.state_of user_name user_email user_preferences
                       conversation_context)]
  ∧ (∀ resp d v,
       net (sent w)
         (create_request (CLI.state_of user_name user_email user_preferences
                            conversation_context)) = Responded resp →
       status_code resp = 200%Z →
       json_body resp = Some (JObj d) →
       d !! "session_id" = Some v →
       outcome net (CLI.create_session user_id user_name user_email
                      user_preferences conversation_context history) w
       = inr (v, (history ++ [WebForm.Created v user_id user_name
                                (CLI.state_of user_name user_email
                                   user_preferences conversation_context)])%list))
  ∧ ((¬ ∃ resp d v,
          net (sent w)
            (create_request (CLI.state_of user_name user_email user_preferences
                               conversation_context)) = Responded resp
          ∧ status_code resp = 200%Z
          ∧ json_body resp = Some (JObj d)
          ∧ d !! "session_id" = Some v) →
     outcome net (CLI.create_session user_id user_name user_email
                    user_preferences conversation_context history) w
     = inr (JNull, history)).
Proof.
  split; [apply cli_create_session_issued|].
  rewrite cli_create_session_outcome. split.
  - intros resp d v -> Hst Hbody Hv.
    rewrite bool_decide_eq_true_2 by done.
    unfold response_json. rewrite Hbody. simpl. by rewrite Hv.
  - intros Hnone.
    destruct (net _ _) as [resp|f] eqn:Enet; [|done].
    case_bool_decide as Hst; [|done].
    unfold response_json. destruct (json_body resp) as [data|] eqn:Ebody; [|done].
    destruct data as [| | | | |d]; simpl; try done.
    destruct (d !! "session_id") as [v|] eqn:Ev; [|done].
    destruct Hnone. by exists resp, d, v.
Qed.

Lemma cli_history_append_only_witness :
  outcome accepting (CLI.create_session "u-1" "Alice" None None None []) fresh
  = inr (JStr "s-1",
         ([] ++ [WebForm.Created (JStr "s-1") "u-1" "Alice"
                   (CLI.state_of "Alice" None None None)])%list)
  ∧ outcome (always (Failed (Refused "refused")))
      (CLI.create_session "u-1" "Alice" None None None []) fresh
    = inr (JNull, []).
Proof.
  split.
  - destruct (cli_history_append_only accepting fresh "u-1" "Alice" None None None [])
      as (_ & Hok & _).
    apply (Hok (Response 200 ""
                  (Some (JObj (<["response" := JStr "ok"]>
                                 {[ "session_id" := JStr "s-1" ]}))))
               (<["response" := JStr "ok"]> {[ "session_id" := JStr "s-1" ]}));
      reflexivity.
  - destruct (cli_history_append_only (always (Failed (Refused "refused"))) fresh
                "u-1" "Alice" None None None [])
      as (_ & _ & Hnot).
    apply Hnot. intros (resp & d & v & Hnet & _). discriminate Hnet.
Defined.

Lemma set_if_truthy_optional key s (m : gmap string json) :
  set_if_truthy key (CLI.optional s) m = set_if_truthy key (Some s) m.
Proof.
  unfold CLI.optional, set_if_truthy, truthy, nonempty.
  destruct (String.eqb s "") eqn:E; simpl; [done|]. by rewrite E.
Qed.

(** X17. The command line and the web form build the same request: for
    the same user name and the same optional texts, an optional prompt
    left blank giving [None], the two issue the same single POST. *)
Theorem cli_and_form_post_alike
    (net : remote) (w : world) (history : list WebForm.created)
    (user_id user_name user_email user_preferences conversation_context : string) :
  user_id ≠ "" → user_name ≠ "" →
  issued net (CLI.create_session user_id user_name (CLI.optional user_email)
                (CLI.optional user_preferences) (CLI.optional conversation_context)
                history) w
  = issued net (WebForm.submit user_id user_name user_email user_preferences
                  conversation_context) w.
Proof.
  intros Hid Hname. rewrite cli_create_session_issued, submit_issued.
  assert (nonempty user_id = true) as -> by (unfold nonempty; by destruct (String.eqb_spec user_id "")).
  assert (nonempty user_name = true) as -> by (unfold nonempty; by destruct (String.eqb_spec user_name "")).
  cbn [andb]. unfold CLI.state_of, WebForm.form_state, base_state.
  by rewrite !set_if_truthy_optional.
Qed.

Lemma cli_and_form_post_alike_witness :
  issued accepting (CLI.create_session "alice" "Alice" (CLI.optional "")
                      (CLI.optional "likes Python") (CLI.optional "") []) fresh
  = issued accepting (WebForm.submit "alice" "Alice" "" "likes Python" "") fresh.
Proof.
  apply (cli_and_form_post_alike accepting fresh [] "alice" "Alice" "" "likes Python" "");
    discriminate.
Defined.

Section InputProperties.
Variable strip : string → string.

Lemma get_input_blanks prompt blanks typed rest :
  Forall (λ b, strip b = "") blanks →
  strip typed ≠ "" →
  CLI.get_input strip prompt true ((CLI.Line <$> blanks) ++ CLI.Line typed :: rest)%list
  = (CLI.Value (Some (strip typed)),
     ((blanks ≫= λ _, [CLI.colored (prompt ++ ": ") CLI.BLUE;
                        CLI.print_error "This field is required!"])
        ++ [CLI.colored (prompt ++ ": ") CLI.BLUE])%list,
     rest).
Proof.
  intros Hblanks Htyped. induction Hblanks as [|b blanks Hb _ IH].
  - simpl. unfold nonempty. by destruct (String.eqb_spec (strip typed) "").
  - cbn [fmap list_fmap app CLI.get_input]. rewrite Hb. simpl.
    cbn [fmap list_fmap app] in IH. by rewrite IH.
Qed.

Lemma get_input_required_value prompt stdin v out rest :
  CLI.get_input strip prompt true stdin = (CLI.Value v, out, rest) →
  ∃ name, v = Some name ∧ name ≠ "".
Proof.
  revert out rest. induction stdin as [|k stdin IH]; intros out rest; simpl; [done|].
  destruct k as [typed|]; [|done].
  unfold nonempty. destruct (String.eqb_spec (strip typed) "") as [He|Hne]; simpl.
  - destruct (CLI.get_input strip prompt true stdin) as [[a o] r] eqn:E.
    intros [= -> _ _]. by eapply IH.
  - intros [= <- _ _]. by eexists.
Qed.

End InputProperties.

(** X18. A required prompt skips blank lines: it asks again after every
    line that is empty once stripped, printing the error each time, and
    returns the first line that is not, stripped, leaving the rest of the
    input unread. *)
Theorem get_input_returns_first_nonblank
    (strip : string → string) (prompt : string)
    (blanks : list string) (typed : string) (rest : list CLI.key) :
  Forall (λ b, strip b = "") blanks →
  strip typed ≠ "" →
  CLI.get_input strip prompt true ((CLI.Line <$> blanks) ++ CLI.Line typed :: rest)%list
  = (CLI.Value (Some (strip typed)),
     ((blanks ≫= λ _, [CLI.colored (prompt ++ ": ") CLI.BLUE;
                        CLI.print_error "This field is required!"])
        ++ [CLI.colored (prompt ++ ": ") CLI.BLUE])%list,
     rest).
Proof. apply get_input_blanks. Qed.

Lemma get_input_returns_first_nonblank_witness :
  (CLI.get_input (λ s, s) "User Name" true
     [CLI.Line ""; CLI.Line "Alice"; CLI.Line "next"]).1.1
  = CLI.Value (Some "Alice").
Proof.
  assert (Forall (λ b : string, (λ s : string, s) b = "") [""]) as Hblank
    by (by repeat constructor).
  assert ((λ s : string, s) "Alice" ≠ "") as Htyped by done.
  exact (f_equal (λ p, p.1.1)
           (get_input_returns_first_nonblank (λ s, s) "User Name" [""] "Alice"
              [CLI.Line "next"] Hblank Htyped)).
Defined.

(** X19. The name a required prompt returns is never empty, whatever is
    typed, and [create_session] posts it as it is: a request sent for a
    name obtained from the prompt carries a non-empty [user_name]. *)
Theorem prompted_name_is_posted
    (strip : string → string) (prompt : string) (stdin rest : list CLI.key)
    (v : option string) (out : list string)
    (net : remote) (w : world) (user_id : string)
    (user_email user_preferences conversation_context : option string)
    (history : list WebForm.created) :
  CLI.get_input strip prompt true stdin = (CLI.Value v, out, rest) →
  ∃ name state,
    v = Some name ∧ name ≠ ""
    ∧ posted_state <$> issued net
        (CLI.create_session user_id name user_email user_preferences
           conversation_context history) w = [Some state]
    ∧ state !! "user_name" = Some (JStr name).
Proof.
  intros Hin. destruct (get_input_required_value _ _ _ _ _ _ Hin) as (name & -> & Hne).
  exists name, (CLI.state_of name user_email user_preferences conversation_context).
  split; [done|]. split; [done|]. split.
  - rewrite cli_create_session_issued. simpl. by rewrite posted_state_create_request.
  - unfold CLI.state_of. rewrite lookup_set_if_truthy.
    rewrite decide_False by done.
    by destruct (base_state_lookup name user_email user_preferences) as [-> _].
Qed.

Lemma prompted_name_is_posted_witness :
  ∃ name state,
    Some "Alice" = Some name ∧ name ≠ ""
    ∧ posted_state <$> issued accepting
        (CLI.create_session "alice" name None None None []) fresh = [Some state]
    ∧ state !! "user_name" = Some (JStr name).
Proof.
  apply (prompted_name_is_posted (λ s, s) "User Name"
           [CLI.Line ""; CLI.Line "Alice"] [] (Some "Alice")
           [CLI.colored ("User Name" ++ ": ") CLI.BLUE;
            CLI.print_error "This field is required!";
            CLI.colored ("User Name" ++ ": ") CLI.BLUE]).
  reflexivity.
Defined.

(** * Further properties of the demos *)

Lemma demo_3_message_tasks_cons sid sids :
  demo_3_message_tasks (sid :: sids)
  = ([SendMessage sid ("Test message " ++ pretty 1%nat);
      SendMessage sid ("Test message " ++ pretty 2%nat);
      SendMessage sid ("Test message " ++ pretty 3%nat)]
       ++ demo_3_message_tasks sids)%list.
Proof. done. Qed.

Lemma demo_3_message_tasks_length sids :
  length (demo_3_message_tasks sids) = (3 * length sids)%nat.
Proof.
  induction sids as [|sid sids IH]; [done|].
  rewrite demo_3_message_tasks_cons, length_app, IH. simpl. lia.
Qed.

Lemma demo_3_message_tasks_lookup sids i k sid :
  sids !! i = Some sid → (k < 3)%nat →
  demo_3_message_tasks sids !! (3 * i + k)%nat
  = Some (SendMessage sid ("Test message " ++ pretty (k + 1)%nat)).
Proof.
  revert i. induction sids as [|s sids IH]; intros i Hi Hk; [done|].
  rewrite demo_3_message_tasks_cons. destruct i as [|i].
  - injection Hi as ->. rewrite lookup_app_l by (simpl; lia).
    replace (3 * 0 + k)%nat with k by lia.
    destruct k as [|[|[|k]]]; [done|done|done|lia].
  - rewrite lookup_app_r by (simpl; lia).
    replace (3 * S i + k - length [SendMessage s ("Test message " ++ pretty 1%nat);
                                   SendMessage s ("Test message " ++ pretty 2%nat);
                                   SendMessage s ("Test message " ++ pretty 3%nat)])%nat
      with (3 * i + k)%nat by (simpl; lia).
    by apply IH.
Qed.

(** X20. In the load test every session gets its three messages next to
    each other and in order, message [k+1] of session [i] at position
    [3*i+k] of the batch; whatever the order in which the exchanges
    complete, the response at that position is the reply to that very
    message. *)
Theorem load_test_replies
    (USE_ASYNC : bool) (net : network) (order : list nat)
    (session_ids : list string) (i k : nat) (sid : string) :
  order ≡ₚ seq 0 (length (demo_3_message_tasks session_ids)) →
  session_ids !! i = Some sid →
  (k < 3)%nat →
  ∃ responses,
    outer (run_batch USE_ASYNC net order (demo_3_message_tasks session_ids))
      = Some (inr responses)
    ∧ length responses = (3 * length session_ids)%nat
    ∧ inr <$> responses !! (3 * i + k)%nat
      = Some (alone USE_ASYNC
                (SendMessage sid ("Test message " ++ pretty (k + 1)%nat))
                (net (3 * i + k)%nat
                   (chat_request sid ("Test message " ++ pretty (k + 1)%nat)))).
Proof.
  intros Hperm Hsid Hk. eexists. split; [by apply gather_outer|]. split.
  - by rewrite length_fmap, length_seq, demo_3_message_tasks_length.
  - rewrite (slots_lookup _ _ _ _ _ (demo_3_message_tasks_lookup _ _ _ _ Hsid Hk)).
    simpl. by rewrite alone_eq.
Qed.

Lemma load_test_replies_witness :
  ∃ responses,
    outer (run_batch true obliging [5; 4; 3; 2; 1; 0]
             (demo_3_message_tasks ["s-a"; "s-b"])) = Some (inr responses)
    ∧ length responses = 6
    ∧ inr <$> responses !! 5
      = Some (alone true (SendMessage "s-b" "Test message 3")
                (obliging 5 (chat_request "s-b" "Test message 3"))).
Proof.
  assert ([5; 4; 3; 2; 1; 0] ≡ₚ seq 0 (length (demo_3_message_tasks ["s-a"; "s-b"])))
    as Hperm.
  { simpl. apply (bool_decide_unpack _). reflexivity. }
  apply (load_test_replies true obliging [5; 4; 3; 2; 1; 0] ["s-a"; "s-b"] 1 2 "s-b"
           Hperm eq_refl).
  lia.
Defined.

Lemma keep_sessions_other (sessions : gmap string string) names session_ids name :
  name ∉ names →
  foldl keep_session sessions (zip names session_ids) !! name = sessions !! name.
Proof.
  revert sessions session_ids.
  induction names as [|n names IH]; intros sessions [|sid ids] Hnot; try done.
  simpl. rewrite IH by set_solver. unfold keep_session. simpl.
  destruct sid as [s|]; [|done]. destruct (truthy (Some s)); [|done].
  rewrite lookup_insert_ne; [done|set_solver].
Qed.

Lemma keep_sessions_lookup (sessions : gmap string string) names session_ids i name sid :
  NoDup names →
  names !! i = Some name → session_ids !! i = Some sid →
  foldl keep_session sessions (zip names session_ids) !! name
  = (if truthy sid then sid else sessions !! name).
Proof.
  intros Hnd. revert sessions session_ids i.
  induction Hnd as [|n names Hn Hnd IH]; intros sessions ids i Hname Hsid; [done|].
  destruct ids as [|sid0 ids]; [by destruct i|].
  destruct i as [|i]; simpl in *.
  - injection Hname as ->. injection Hsid as ->.
    rewrite keep_sessions_other by done. unfold keep_session. simpl.
    destruct sid as [s|]; [|done].
    destruct (truthy (Some s)); [by rewrite lookup_insert_eq|done].
  - rewrite (IH _ _ i) by done.
    destruct (truthy sid); [done|]. unfold keep_session. simpl.
    destruct sid0 as [s|]; [|done]. destruct (truthy (Some s)); [|done].
    rewrite lookup_insert_ne; [done|].
    intros ->. apply Hn. by eapply list_elem_of_lookup_2.
Qed.

Lemma keep_sessions_none (sessions : gmap string string) names session_ids :
  Forall (λ sid, truthy sid = false) session_ids →
  foldl keep_session sessions (zip names session_ids) = sessions.
Proof.
  intros Hall. revert sessions names.
  induction Hall as [|sid ids Hsid _ IH]; intros sessions [|n names]; try done.
  simpl. rewrite IH. unfold keep_session. simpl.
  destruct sid as [s|]; [|done]. by rewrite Hsid.
Qed.

Lemma demo_4_tasks_first_missing convs (sessions : gmap string string) i name messages :
  convs !! i = Some (name, messages) →
  sessions !! name = None →
  (∀ j conv, (j < i)%nat → convs !! j = Some conv → is_Some (sessions !! conv.1)) →
  demo_4_tasks convs sessions = inl (KeyError name).
Proof.
  revert i. induction convs as [|[n ms] convs IH]; intros i Hi Hnone Hbefore; [done|].
  destruct i as [|i]; simpl in *.
  - injection Hi as -> ->. by rewrite Hnone.
  - destruct (Hbefore 0%nat (n, ms)) as [s Hs]; [lia|done|].
    simpl in Hs. rewrite Hs.
    rewrite (IH i); [done|done|done|].
    intros j conv Hj Hconv. apply (Hbefore (S j)); [lia|done].
Qed.

(** X21. When no session could be created demo 4 gives up before sending
    anything.  When some creations failed and others did not, it does not
    skip the users without a session: building the message tasks raises
    [KeyError] for the first user, in the order of the conversations,
    whose creation returned [None] or an empty id, and no message is
    sent. *)
Theorem demo_4_partial_creation
    (convs : list (string * list string)) (session_ids : list (option string)) :
  NoDup (fst <$> convs) →
  length session_ids = length convs →
  (Forall (λ sid, truthy sid = false) session_ids →
   demo_4_messages convs session_ids = inr None)
  ∧ (∀ i name messages sid,
       convs !! i = Some (name, messages) →
       session_ids !! i = Some sid →
       truthy sid = false →
       (∀ j sid', (j < i)%nat → session_ids !! j = Some sid' → truthy sid' = true) →
       (∃ k sid', session_ids !! k = Some sid' ∧ truthy sid' = true) →
       demo_4_messages convs session_ids = inl (KeyError name)).
Proof.
  intros Hnd Hlen. unfold demo_4_messages, demo_4_sessions_of. split.
  - intros Hall. by rewrite keep_sessions_none.
  - intros i name messages sid Hconv Hsid Hfail Hbefore (k & sid' & Hk & Hok).
    assert (∀ j conv sidj, convs !! j = Some conv → session_ids !! j = Some sidj →
              foldl keep_session ∅ (zip (fst <$> convs) session_ids) !! conv.1
              = (if truthy sidj then sidj else None)) as Hlook.
    { intros j conv sidj Hj Hsj.
      rewrite (keep_sessions_lookup _ _ _ j conv.1 sidj); [done|done| |done].
      by rewrite list_lookup_fmap, Hj. }
    rewrite bool_decide_eq_false_2.
    + rewrite (demo_4_tasks_first_missing _ _ i name messages); [done|done| |].
      * pose proof (Hlook i (name, messages) sid Hconv Hsid) as Hi.
        simpl in Hi. by rewrite Hi, Hfail.
      * intros j conv Hj Hcj.
        destruct (lookup_lt_is_Some_2 session_ids j) as [sidj Hsj].
        { rewrite Hlen. by eapply lookup_lt_Some. }
        rewrite (Hlook j conv sidj) by done.
        pose proof (Hbefore j sidj Hj Hsj) as Htrue. rewrite Htrue.
        destruct sidj as [s|]; [by eexists|done].
    + destruct (lookup_lt_is_Some_2 convs k) as [conv Hck].
      { rewrite <- Hlen. by eapply lookup_lt_Some. }
      intros Hsize. apply map_size_empty_iff in Hsize.
      pose proof (Hlook k conv sid' Hck Hk) as Hl. rewrite Hok, Hsize in Hl.
      destruct sid'; [by rewrite lookup_empty in Hl|done].
Qed.

Lemma demo_4_partial_creation_witness :
  demo_4_messages conversations [Some "s-alice"; None; Some "s-carol"]
  = inl (KeyError "Bob").
Proof.
  assert (NoDup (fst <$> conversations)) as Hnd.
  { apply (bool_decide_unpack _). reflexivity. }
  refine (proj2 (demo_4_partial_creation conversations
                   [Some "s-alice"; None; Some "s-carol"] Hnd eq_refl)
            1 "Bob" _ None eq_refl eq_refl eq_refl _ _).
  - intros [|j] sid' Hj; [|lia]. by intros [= <-].
  - by exists 0, (Some "s-alice").
Defined.

Lemma filter_all {A} (P : A → Prop) `{!∀ x, Decision (P x)} (l : list A) :
  Forall P l → filter P l = l.
Proof.
  induction 1 as [|x l Hx _ IH]; [done|].
  by rewrite filter_cons_True, IH.
Qed.

Lemma filter_none {A} (P : A → Prop) `{!∀ x, Decision (P x)} (l : list A) :
  Forall (λ x, ¬ P x) l → filter P l = [].
Proof.
  induction 1 as [|x l Hx _ IH]; [done|].
  by rewrite filter_cons_False, IH.
Qed.

Lemma message_map_names convs (p : string * string) :
  p ∈ demo_4_message_map convs → p.1 ∈ fst <$> convs.
Proof.
  unfold demo_4_message_map. intros Hp.
  apply list_elem_of_bind in Hp as (conv & Hin & Hconv).
  apply list_elem_of_fmap in Hin as (m & -> & _). simpl.
  apply list_elem_of_fmap. by exists conv.
Qed.

Lemma zip_foreign name (mm : list (string * string)) (rs : list json) :
  (∀ p, p ∈ mm → p.1 ≠ name) →
  filter (λ p : string * string * json, p.1.1 = name) (zip mm rs) = [].
Proof.
  intros Hmm. apply filter_none. apply Forall_forall. intros [p r] Hin.
  apply elem_of_zip_l in Hin. by apply Hmm.
Qed.

Lemma zip_own name (messages : list string) (rs : list json) :
  (λ p : string * string * json, (p.1.2, p.2))
    <$> filter (λ p : string * string * json, p.1.1 = name)
          (zip (pair name <$> messages) rs)
  = zip messages rs.
Proof.
  revert rs. induction messages as [|m messages IH]; intros [|r rs]; try done.
  cbn [fmap list_fmap zip zip_with]. rewrite filter_cons_True by done.
  rewrite fmap_cons. simpl. f_equal. apply IH.
Qed.

(** X22. Demo 4 shows under every user that user's own messages, all of
    them and in order, each next to the response standing at the position
    of that message in the batch: the pairs shown for a user are the
    user's messages zipped with the stretch of responses that starts
    where the user's messages start in the batch. *)
Theorem demo_4_shows_own_replies
    (pre post : list (string * list string)) (name : string)
    (messages : list string) (responses : list json) :
  NoDup (fst <$> (pre ++ (name, messages) :: post)%list) →
  length responses
    = length (demo_4_message_map (pre ++ (name, messages) :: post)%list) →
  user_responses name (demo_4_message_map (pre ++ (name, messages) :: post)%list)
    responses
  = zip messages
      (take (length messages) (drop (length (demo_4_message_map pre)) responses)).
Proof.
  intros Hnd Hlen. unfold user_responses.
  assert (demo_4_message_map (pre ++ (name, messages) :: post)%list
          = (demo_4_message_map pre
               ++ (pair name <$> messages) ++ demo_4_message_map post)%list) as Hmm.
  { unfold demo_4_message_map. by rewrite bind_app, bind_cons. }
  rewrite Hmm in *. rewrite !length_app, length_fmap in Hlen.
  set (a := length (demo_4_message_map pre)) in *.
  rewrite <- (take_drop a responses) at 1.
  rewrite <- (take_drop (length messages) (drop a responses)) at 1.
  rewrite zip_with_app by (rewrite length_take; lia).
  rewrite zip_with_app by (rewrite length_fmap, length_take, length_drop; lia).
  rewrite !filter_app.
  rewrite fmap_app, fmap_cons in Hnd. simpl in Hnd.
  apply NoDup_app in Hnd as (_ & Hpre & Hrest).
  apply NoDup_cons in Hrest as [Hpost _].
  rewrite (zip_foreign name (demo_4_message_map pre)).
  2:{ intros p Hp Hname. apply message_map_names in Hp. rewrite Hname in Hp.
      apply (Hpre _ Hp). set_solver. }
  rewrite (zip_foreign name (demo_4_message_map post)).
  2:{ intros p Hp Hname. apply message_map_names in Hp. rewrite Hname in Hp.
      by apply Hpost. }
  rewrite app_nil_l, app_nil_r. apply zip_own.
Qed.

Lemma demo_4_shows_own_replies_witness :
  user_responses "Bob" (demo_4_message_map conversations)
    (JStr <$> ["a1"; "a2"; "a3"; "b1"; "b2"; "b3"; "c1"; "c2"; "c3"])
  = zip ["Hello! I'm a data scientist."; "I work with machine learning.";
         "What's my profession?"]
      (JStr <$> ["b1"; "b2"; "b3"]).
Proof.
  assert (NoDup (fst <$> conversations)) as Hnd.
  { apply (bool_decide_unpack _). reflexivity. }
  exact (demo_4_shows_own_replies
           [("Alice", ["Hi! I'm a software engineer."; "I love Python programming.";
                       "What do I do for work?"])]
           [("Carol", ["Hey! I'm a student."; "I'm learning computer science.";
                       "What am I studying?"])]
           "Bob" ["Hello! I'm a data scientist."; "I work with machine learning.";
                  "What's my profession?"]
           (JStr <$> ["a1"; "a2"; "a3"; "b1"; "b2"; "b3"; "c1"; "c2"; "c3"])
           Hnd eq_refl).
Defined.

(** ** The set-up check *)

Lemma string_prefix_app (sub s : string) :
  String.prefix sub s = true ↔ ∃ post, s = sub ++ post.
Proof.
  revert s. induction sub as [|a sub IH]; intros s.
  - split; [intros _; by exists s|by destruct s].
  - destruct s as [|b s].
    { split; [done|]. intros [post Hpost]. discriminate Hpost. }
    change (String.prefix (String a sub) (String b s))
      with (if Ascii.ascii_dec a b then String.prefix sub s else false).
    destruct (Ascii.ascii_dec a b) as [->|Hab].
    + rewrite IH. split; intros [post Hpost]; exists post.
      * change (String b sub ++ post) with (String b (sub ++ post)).
        by rewrite Hpost.
      * change (String b sub ++ post) with (String b (sub ++ post)) in Hpost.
        by injection Hpost.
    + split; [done|]. intros [post Hpost].
      change (String a sub ++ post) with (String a (sub ++ post)) in Hpost.
      injection Hpost as Hb _. by subst.
Qed.

(** [contains] is the substring test. *)
Lemma contains_substring (sub s : string) :
  VerifySetup.contains sub s = true ↔ ∃ pre post, s = pre ++ sub ++ post.
Proof.
  induction s as [|b s IH].
  - change (VerifySetup.contains sub "") with (String.prefix sub "" || false).
    rewrite orb_false_r, string_prefix_app. split.
    + intros [post Hpost]. by exists "", post.
    + intros (pre & post & Hs). destruct pre as [|? ?]; [|discriminate Hs].
      by exists post.
  - change (VerifySetup.contains sub (String b s))
      with (String.prefix sub (String b s) || VerifySetup.contains sub s).
    rewrite orb_true_iff, IH, string_prefix_app. split.
    + intros [[post Hpost]|(pre & post & Hs)].
      * by exists "", post.
      * exists (String b pre), post.
        change (String b pre ++ sub ++ post) with (String b (pre ++ sub ++ post)).
        by rewrite Hs.
    + intros (pre & post & Hs). destruct pre as [|c pre].
      * left. by exists post.
      * right. exists pre, post.
        change (String c pre ++ sub ++ post)
          with (String c (pre ++ sub ++ post)) in Hs.
        by injection Hs.
Qed.

Lemma check_all_flag (check : string → string → bool * string)
    (items : list (string * string)) (st : VerifySetup.progress) :
  (VerifySetup.check_all check items st).1
  = st.1 && forallb (λ item, (check item.1 item.2).1) items.
Proof.
  unfold VerifySetup.check_all. revert st.
  induction items as [|item items IH]; intros st; simpl.
  - by rewrite andb_true_r.
  - rewrite IH. simpl. destruct (check item.1 item.2).1, st.1; simpl; try done.
Qed.

Lemma check_content_flag (content : string) (st : VerifySetup.progress) :
  (VerifySetup.check_content content st).1
  = st.1 && forallb (λ c, VerifySetup.contains c.1 content) VerifySetup.checks.
Proof.
  unfold VerifySetup.check_content. generalize VerifySetup.checks. intros cs.
  revert st. induction cs as [|c cs IH]; intros st; simpl.
  - by rewrite andb_true_r.
  - rewrite IH. destruct (VerifySetup.contains c.1 content), st.1; simpl; try done.
Qed.

Lemma summary_code (st : VerifySetup.progress) :
  (VerifySetup.summary st).2 = if st.1 then 0%Z else 1%Z.
Proof. unfold VerifySetup.summary. by destruct st.1. Qed.

Section SetupProperties.
Variable fs : VerifySetup.filesystem.
Variable joinpath : string → string → string.
Variable base_path : string.

Local Abbreviation files :=
  (VerifySetup.agent_files joinpath base_path
     ++ VerifySetup.webui_files joinpath base_path
     ++ VerifySetup.api_files joinpath base_path
     ++ VerifySetup.cli_files joinpath base_path
     ++ VerifySetup.example_files joinpath base_path
     ++ VerifySetup.doc_files joinpath base_path)%list.

Lemma check_paths_flag :
  (VerifySetup.check_paths fs joinpath base_path).1
  = forallb (λ item, VerifySetup.isdir fs item.1)
      (VerifySetup.folders joinpath base_path)
    && forallb (λ item, VerifySetup.path_exists fs item.1) files.
Proof.
  assert (∀ items,
    forallb (λ item, (VerifySetup.check_file fs item.1 item.2).1) items
    = forallb (λ item, VerifySetup.path_exists fs item.1) items) as Hfile.
  { intros items. induction items as [|item items IH]; [done|]. simpl.
    rewrite IH. unfold VerifySetup.check_file.
    by destruct (VerifySetup.path_exists fs item.1). }
  assert (∀ items,
    forallb (λ item, (VerifySetup.check_directory fs item.1 item.2).1) items
    = forallb (λ item, VerifySetup.isdir fs item.1) items) as Hdir.
  { intros items. induction items as [|item items IH]; [done|]. simpl.
    rewrite IH. unfold VerifySetup.check_directory.
    by destruct (VerifySetup.isdir fs item.1). }
  unfold VerifySetup.check_paths. cbv zeta. unfold VerifySetup.say at 1.
  cbn [fst]. rewrite !check_all_flag. unfold VerifySetup.say. cbn [fst].
  rewrite !check_all_flag. cbn [fst].
  rewrite !Hfile, Hdir, !forallb_app. cbn [andb].
  by rewrite !andb_assoc.
Qed.

(** X23. [main] of verify_setup.py returns 0 exactly when each of the
    five folders is a directory, each of the seventeen files exists and
    the text of agent/agent.py contains each of the four markers; in
    every other case it returns 1.  One failed check is enough, and a
    later success never resets the flag.  (When agent/agent.py is there,
    reading it is supposed to succeed.) *)
Theorem main_returns_zero_iff_all_found (content : string) :
  (VerifySetup.path_exists fs (VerifySetup.agent_file joinpath base_path) = true →
   VerifySetup.read_text fs (VerifySetup.agent_file joinpath base_path)
   = inr content) →
  let code := (VerifySetup.main fs joinpath base_path).2 in
  (code = inr 0%Z ∨ code = inr 1%Z)
  ∧ (code = inr 0%Z ↔
       Forall (λ item, VerifySetup.isdir fs item.1 = true)
         (VerifySetup.folders joinpath base_path)
       ∧ Forall (λ item, VerifySetup.path_exists fs item.1 = true) files
       ∧ Forall (λ c, VerifySetup.contains c.1 content = true)
           VerifySetup.checks).
Proof.
  intros Hread code.
  assert (∀ {A} (f : A → bool) l, forallb f l = true ↔ Forall (λ x, f x = true) l)
    as Hall.
  { intros A f l. rewrite forallb_forall, Forall_forall.
    split; intros H x Hx; apply H; by apply list_elem_of_In. }
  rewrite <- !Hall.
  assert (forallb (λ item, VerifySetup.path_exists fs item.1) files = true →
          VerifySetup.path_exists fs (VerifySetup.agent_file joinpath base_path)
          = true) as Hfile.
  { intros Hfiles. rewrite forallb_forall in Hfiles.
    apply (Hfiles (VerifySetup.agent_file joinpath base_path, "Agent definition")).
    simpl. tauto. }
  subst code. unfold VerifySetup.main.
  destruct (VerifySetup.path_exists fs (VerifySetup.agent_file joinpath base_path))
    eqn:Hexists.
  - rewrite (Hread eq_refl). cbn [snd]. rewrite summary_code, check_content_flag.
    rewrite check_paths_flag.
    destruct (forallb _ (VerifySetup.folders joinpath base_path)),
      (forallb (λ item, VerifySetup.path_exists fs item.1) files),
      (forallb _ VerifySetup.checks); simpl; split; try tauto; try (by left);
      try (by right); split; try done; intros (? & ? & ?); done.
  - cbn [snd]. rewrite summary_code, check_paths_flag.
    destruct (forallb (λ item, VerifySetup.path_exists fs item.1) files) eqn:Hfiles.
    { specialize (Hfile eq_refl). congruence. }
    rewrite andb_false_r. split; [by right|]. split; [done|].
    intros (? & ? & ?); done.
Qed.

End SetupProperties.

Lemma main_returns_zero_iff_all_found_witness :
  (VerifySetup.main
     (all_there "root_agent = Agent(name='dynamic_session_agent', model='gemini-2.0-flash', instruction='{%- if user_name %}')")
     slash ".").2
  = inr 0%Z.
Proof.
  destruct (main_returns_zero_iff_all_found
              (all_there "root_agent = Agent(name='dynamic_session_agent', model='gemini-2.0-flash', instruction='{%- if user_name %}')")
              slash "."
              "root_agent = Agent(name='dynamic_session_agent', model='gemini-2.0-flash', instruction='{%- if user_name %}')"
              (λ _, eq_refl)) as [_ [_ Hback]].
  apply Hback. split; [|split]; repeat constructor.
Defined.

(** ** The clean-up loop *)

Lemma run_bind {A B} net (c : coro A) (f : A → coro B) w :
  run net (c ≫= f) w
  = match run net c w with
    | (inl e, w') => (inl e, w')
    | (inr a, w') => run net (f a) w'
    end.
Proof.
  revert w. induction c as [a|e|l c IH|r k IH|r k IH]; intros w; try done.
  - apply IH.
  - apply IH.
  - apply IH.
Qed.

Lemma delete_one_run head16 manager session_id net w :
  ∃ line,
    run net (Examples.delete_one head16 manager session_id) w
    = (inr tt,
       World (sent w ++ [SessionManager.session_request DELETE manager session_id])
             (console w ++ [line])).
Proof.
  unfold Examples.delete_one, SessionManager.delete_session. simpl.
  destruct (net (sent w) _) as [resp|f]; simpl.
  - destruct (raise_for_status resp) as [e|[]]; simpl; eauto.
  - eauto.
Qed.

(** X24. The clean-up loop of example 3 never raises and is not stopped
    by a deletion that fails: whatever the service answers, it sends one
    DELETE for each created session, in the order of creation, and
    prints one line for each. *)
Theorem cleanup_deletes_every_session
    (head16 : string → string) (manager : SessionManager.t)
    (created_sessions : list string) (net : remote) (w : world) :
  outcome net (Examples.cleanup head16 manager created_sessions) w = inr tt
  ∧ issued net (Examples.cleanup head16 manager created_sessions) w
    = SessionManager.session_request DELETE manager <$> created_sessions
  ∧ length (console (run net (Examples.cleanup head16 manager created_sessions) w).2)
    = (length (console w) + length created_sessions)%nat.
Proof.
  unfold outcome, issued.
  assert (∃ lines,
    run net (Examples.cleanup head16 manager created_sessions) w
    = (inr tt,
       World (sent w ++ (SessionManager.session_request DELETE manager
                           <$> created_sessions))
             (console w ++ lines))
    ∧ length lines = length created_sessions) as (lines & -> & Hlines).
  { revert w. induction created_sessions as [|sid rest IH]; intros w.
    - exists []. simpl. rewrite !app_nil_r. by destruct w.
    - cbn [Examples.cleanup]. rewrite run_bind.
      destruct (delete_one_run head16 manager sid net w) as [line ->].
      destruct (IH (World (sent w ++ [SessionManager.session_request DELETE
                                        manager sid])
                          (console w ++ [line]))) as (lines & -> & Hlen).
      exists (line :: lines). simpl. rewrite <- !app_assoc. simpl.
      by rewrite Hlen. }
  simpl. rewrite drop_app_length, length_app. by rewrite Hlines.
Qed.
